(** * flask-redis: the connection-URL resolver and [init_app]

    A shallow embedding of [flask_redis/client.py].  The class [FlaskRedis]
    reads a connection URL from the application's configuration, parses it
    with [urllib.parse.urlparse], and either hands the URL unchanged to the
    provider's [from_url] or, for the two sentinel schemes, derives the
    sentinel parameters from the parsed URL and asks a [Sentinel] for the
    master.

    The embedding covers [init_app], [_init_standard_client],
    [_init_sentinel_client] and the parsers [_parse_sentinel_parameters],
    [_extract_credentials], [_parse_hosts], [_parse_master_and_db],
    [_parse_socket_timeout], [_parse_ssl_enabled], [_parse_ssl_params],
    [_parse_ssl_cert_reqs] and [_parse_auth_params].  The constructor and
    the methods that forward to the connected client are outside of it.

    Conventions of the model.
    - A Python [str] is a [string]; the model covers text in the ASCII range
      (case folding, whitespace and digits are the ASCII ones).
    - A Python [dict] with string keys is a [gmap string _].
    - A raised exception is the [Raise] branch of [result]; the exception
      classes that the code can raise are the constructors of [exn].
    - The interpreter's functions and the ones of [urllib.parse] that the
      client calls ([str.split], [int], [float], [urlparse], [parse_qs], ...)
      are modelled in the modules [Py] and [Urllib] below. *)

From Stdlib Require Import ZArith QArith Ascii.
From stdpp Require Import gmap strings list fin_maps.

Local Open Scope Z_scope.

(** ** Exceptions and the error monad *)

Inductive exn : Type :=
  | ValueError
  | IndexError
  | ImportError
  | TypeError
  | ProviderError (code : nat).

Inductive result (A : Type) : Type :=
  | Ok (a : A)
  | Raise (e : exn).
Arguments Ok {A} a.
Arguments Raise {A} e.

Global Instance result_ret : MRet result := @Ok.
Global Instance result_bind : MBind result := fun A B k r =>
  match r with
  | Ok a => k a
  | Raise e => Raise e
  end.

Definition is_ok {A} (r : result A) : bool :=
  match r with Ok _ => true | Raise _ => false end.

(** ** The interpreter's string and number functions *)

Module Py.

(** [c in s], for a one-character [c]. *)
Fixpoint contains (c : ascii) (s : string) : bool :=
  match s with
  | EmptyString => false
  | String d s' => if Ascii.eqb c d then true else contains c s'
  end.

(** [s.partition(c)]: the text before the first [c] and the text after
    it, or [None] when [c] does not occur.  With [c in s],
    [s.split(c, 1)] is the two-element list of these. *)
Fixpoint partition (c : ascii) (s : string) : option (string * string) :=
  match s with
  | EmptyString => None
  | String d s' =>
      if Ascii.eqb c d then Some (EmptyString, s')
      else match partition c s' with
           | Some (l, r) => Some (String d l, r)
           | None => None
           end
  end.

(** [s.split(c, 1)]: one piece, or the two pieces around the first
    [c]. *)
Definition split1 (c : ascii) (s : string) : list string :=
  match partition c s with
  | Some (l, r) => [l; r]
  | None => [s]
  end.

(** [a, b = l]: unpacking a list into two names. *)
Definition unpack2 (l : list string) : result (string * string) :=
  match l with
  | [a; b] => Ok (a, b)
  | _ => Raise ValueError
  end.

(** [l[i]]. *)
Definition item (l : list string) (i : nat) : result string :=
  match l !! i with
  | Some x => Ok x
  | None => Raise IndexError
  end.

(** [s.rpartition(c)]: the text around the last occurrence of [c]. *)
Fixpoint rpartition (c : ascii) (s : string) : option (string * string) :=
  match s with
  | EmptyString => None
  | String d s' =>
      match rpartition c s' with
      | Some (l, r) => Some (String d l, r)
      | None => if Ascii.eqb c d then Some (EmptyString, s') else None
      end
  end.

(** [s.split(c)]: all the pieces between occurrences of [c]; never the
    empty list. *)
Fixpoint split (c : ascii) (s : string) : list string :=
  match s with
  | EmptyString => [EmptyString]
  | String d s' =>
      if Ascii.eqb c d then EmptyString :: split c s'
      else match split c s' with
           | t :: ts => String d t :: ts
           | [] => [String d EmptyString]
           end
  end.

(** [s.lstrip(c)] for a one-character [c]. *)
Fixpoint lstrip (c : ascii) (s : string) : string :=
  match s with
  | EmptyString => EmptyString
  | String d s' => if Ascii.eqb c d then lstrip c s' else s
  end.

(** [s.replace(c, "")]. *)
Fixpoint remove (c : ascii) (s : string) : string :=
  match s with
  | EmptyString => EmptyString
  | String d s' => if Ascii.eqb c d then remove c s' else String d (remove c s')
  end.

(** [s.replace(c, d)] for one-character [c] and [d]. *)
Fixpoint replace (c d : ascii) (s : string) : string :=
  match s with
  | EmptyString => EmptyString
  | String e s' => String (if Ascii.eqb c e then d else e) (replace c d s')
  end.

Definition between (lo hi : N) (c : ascii) : bool :=
  ((lo <=? N_of_ascii c) && (N_of_ascii c <=? hi))%N.

Definition is_upper : ascii -> bool := between 65 90.
Definition is_lower : ascii -> bool := between 97 122.
Definition is_digit : ascii -> bool := between 48 57.
Definition is_alpha (c : ascii) : bool := is_upper c || is_lower c.

(** The characters [int] and [float] skip around a number: tab, line
    feed, vertical tab, form feed, carriage return and the space. *)
Definition is_space (c : ascii) : bool :=
  between 9 13 c || Ascii.eqb c " ".

Definition lower_char (c : ascii) : ascii :=
  if is_upper c then ascii_of_N (N_of_ascii c + 32) else c.

(** [s.lower()]. *)
Fixpoint lower (s : string) : string :=
  match s with
  | EmptyString => EmptyString
  | String c s' => String (lower_char c) (lower s')
  end.

Fixpoint lstrip_space (s : string) : string :=
  match s with
  | EmptyString => EmptyString
  | String c s' => if is_space c then lstrip_space s' else s
  end.

(** Drops the trailing whitespace. *)
Fixpoint rstrip_space (s : string) : string :=
  match s with
  | EmptyString => EmptyString
  | String c s' =>
      match rstrip_space s' with
      | EmptyString => if is_space c then EmptyString else String c EmptyString
      | t => String c t
      end
  end.

Definition strip_space (s : string) : string := rstrip_space (lstrip_space s).

(** Truthiness of a [str]: the empty string is false. *)
Definition truthy (s : string) : bool :=
  match s with EmptyString => false | String _ _ => true end.

(** *** [int(s)] in base ten

    Whitespace around the number is skipped, one sign is allowed, and the
    digits may be grouped by single underscores between digits.  The
    interpreter's configurable limit on the number of digits is not part
    of the model. *)

Definition digit_val (c : ascii) : N := (N_of_ascii c - 48)%N.

(** Reads [digit (["_"] digit)*] up to the end of the string; [prev] is
    the character read last. *)
Fixpoint read_digits (s : string) (acc : N) (prev : ascii) : option N :=
  match s with
  | EmptyString => if is_digit prev then Some acc else None
  | String c s' =>
      if is_digit c then read_digits s' (10 * acc + digit_val c)%N c
      else if Ascii.eqb c "_" && is_digit prev then read_digits s' acc c
      else None
  end.

Definition int (s : string) : result Z :=
  let t := strip_space s in
  let '(neg, body) :=
    match t with
    | String "+" r => (false, r)
    | String "-" r => (true, r)
    | _ => (false, t)
    end in
  match read_digits body 0%N " " with
  | Some n => Ok (if neg then - Z.of_N n else Z.of_N n)
  | None => Raise ValueError
  end.

(** *** [float(s)]

    The value of a Python float is kept as the exact rational that the
    literal denotes (reduced, with the sign apart so that [-0.0] stays
    distinct); the rounding to a binary64 that the interpreter then
    performs changes neither which strings are accepted nor the value of
    a literal that is a binary64 already. *)

Inductive pyfloat : Type :=
  | PyFinite (neg : bool) (abs : Q)
  | PyInf (neg : bool)
  | PyNan.

(** Underscores may only stand between two digits; they are dropped
    before the number is read. *)
Fixpoint drop_underscores (s : string) (prev : ascii) : option string :=
  match s with
  | EmptyString => if Ascii.eqb prev "_" then None else Some EmptyString
  | String c s' =>
      if Ascii.eqb c "_" then
        if is_digit prev then drop_underscores s' c else None
      else if Ascii.eqb prev "_" && negb (is_digit c) then None
      else match drop_underscores s' c with
           | Some t => Some (String c t)
           | None => None
           end
  end.

(** The longest prefix of digits: its value on top of [acc], its length
    on top of [n], and the rest of the string. *)
Fixpoint span_digits (s : string) (acc : N) (n : nat) : N * nat * string :=
  match s with
  | EmptyString => (acc, n, EmptyString)
  | String c s' =>
      if is_digit c then span_digits s' (10 * acc + digit_val c)%N (S n)
      else (acc, n, s)
  end.

Definition read_sign (s : string) : bool * string :=
  match s with
  | String "+" r => (false, r)
  | String "-" r => (true, r)
  | _ => (false, s)
  end.

(** [digits ["." digits] [("e"|"E") [sign] digits]] with a digit in the
    mantissa: the mantissa as an integer and the power of ten. *)
Definition read_decimal (s : string) : option (N * Z) :=
  let '(m1, n1, r1) := span_digits s 0%N 0%nat in
  let '(m, nf, r2) :=
    match r1 with
    | String "." r => span_digits r m1 0%nat
    | _ => (m1, 0%nat, r1)
    end in
  if (n1 + nf =? 0)%nat then None
  else match r2 with
       | EmptyString => Some (m, - Z.of_nat nf)
       | String c r3 =>
           if Ascii.eqb (lower_char c) "e" then
             let '(eneg, r4) := read_sign r3 in
             let '(x, nx, r5) := span_digits r4 0%N 0%nat in
             match nx, r5 with
             | S _, EmptyString =>
                 Some (m, (if eneg then - Z.of_N x else Z.of_N x) - Z.of_nat nf)
             | _, _ => None
             end
           else None
       end.

Definition decimal_value (m : N) (e : Z) : Q :=
  if 0 <=? e then Qmake (Z.of_N m * 10 ^ e) 1
  else Qred (Qmake (Z.of_N m) (Z.to_pos (10 ^ (- e)))).

Definition float (s : string) : result pyfloat :=
  match drop_underscores s " " with
  | None => Raise ValueError
  | Some u =>
      let '(neg, body) := read_sign (strip_space u) in
      let name := lower body in
      if String.eqb name "inf" || String.eqb name "infinity" then Ok (PyInf neg)
      else if String.eqb name "nan" then Ok PyNan
      else match read_decimal body with
           | Some (m, e) => Ok (PyFinite neg (decimal_value m e))
           | None => Raise ValueError
           end
  end.

End Py.

(** ** [urllib.parse]: [urlparse], [parse_qs] and [unquote] *)

Module Urllib.

(** The components of a parsed URL that the client reads.  For the
    schemes of [uses_params], [urlparse] further splits [;params] off the
    path; neither sentinel scheme is among them, and the client reads the
    path of a sentinel URL only. *)
Record ParseResult : Type := {
  scheme : string;
  netloc : string;
  path : string;
  query : string;
  fragment : string
}.

(** Letters, digits and [+-.]. *)
Definition scheme_char (c : ascii) : bool :=
  Py.is_alpha c || Py.is_digit c
  || Ascii.eqb c "+" || Ascii.eqb c "-" || Ascii.eqb c ".".

Fixpoint all_chars (P : ascii -> bool) (s : string) : bool :=
  match s with
  | EmptyString => true
  | String c s' => P c && all_chars P s'
  end.

(** The leading C0 control characters and spaces are stripped. *)
Fixpoint lstrip_c0 (s : string) : string :=
  match s with
  | EmptyString => EmptyString
  | String c s' => if Py.between 0 32 c then lstrip_c0 s' else s
  end.

(** Tab, carriage return and line feed are removed wherever they are. *)
Definition remove_unsafe (s : string) : string :=
  Py.remove "010" (Py.remove "013" (Py.remove "009" s)).

(** The scheme, when the text before the first [:] is not empty, starts
    with a letter and is made of scheme characters. *)
Definition split_scheme (url : string) : string * string :=
  match Py.partition ":" url with
  | Some (String c0 s0, rest) =>
      if Py.is_alpha c0 && all_chars scheme_char (String c0 s0)
      then (Py.lower (String c0 s0), rest)
      else (EmptyString, url)
  | _ => (EmptyString, url)
  end.

Definition netloc_end (c : ascii) : bool :=
  Ascii.eqb c "/" || Ascii.eqb c "?" || Ascii.eqb c "#".

(** [_splitnetloc]: the text up to the first of [/], [?] and [#]. *)
Fixpoint _splitnetloc (s : string) : string * string :=
  match s with
  | EmptyString => (EmptyString, EmptyString)
  | String c s' =>
      if netloc_end c then (EmptyString, s)
      else let '(n, r) := _splitnetloc s' in (String c n, r)
  end.

(** [urlsplit] raises [ValueError] on a netloc with one kind of square
    bracket only.  (Later versions also validate the address between a
    pair of brackets; that check rejects more URLs and changes no
    result.) *)
Definition urlparse (url : string) : result ParseResult :=
  let url := remove_unsafe (lstrip_c0 url) in
  let '(scheme, url) := split_scheme url in
  '(netloc, url) ←
    match url with
    | String "/" (String "/" rest) =>
        let '(netloc, url) := _splitnetloc rest in
        if xorb (Py.contains "[" netloc) (Py.contains "]" netloc)
        then Raise ValueError
        else Ok (netloc, url)
    | _ => Ok (EmptyString, url)
    end;
  let '(url, fragment) :=
    match Py.partition "#" url with
    | Some (u, f) => (u, f)
    | None => (url, EmptyString)
    end in
  let '(url, query) :=
    match Py.partition "?" url with
    | Some (u, q) => (u, q)
    | None => (url, EmptyString)
    end in
  Ok {| scheme := scheme; netloc := netloc; path := url;
        query := query; fragment := fragment |}.

(** The properties [username] and [password]: the user information is
    the text before the last [@] of the netloc, and the password the text
    after its first [:]. *)
Definition _userinfo (p : ParseResult) : option string * option string :=
  match Py.rpartition "@" (netloc p) with
  | Some (userinfo, _) =>
      match Py.partition ":" userinfo with
      | Some (username, password) => (Some username, Some password)
      | None => (Some userinfo, None)
      end
  | None => (None, None)
  end.

Definition username (p : ParseResult) : option string := (_userinfo p).1.
Definition password (p : ParseResult) : option string := (_userinfo p).2.

Definition hex_val (c : ascii) : option N :=
  if Py.is_digit c then Some (N_of_ascii c - 48)%N
  else if Py.between 97 102 (Py.lower_char c)
       then Some (N_of_ascii (Py.lower_char c) - 87)%N
       else None.

(** [unquote]: [%XX] with two hexadecimal digits becomes the character of
    that code, any other [%] stays.  (An escape above the ASCII range is
    decoded as UTF-8 by the library; the model keeps the byte.) *)
Fixpoint unquote (s : string) : string :=
  match s with
  | EmptyString => EmptyString
  | String c s' =>
      let keep := String c (unquote s') in
      if Ascii.eqb c "%" then
        match s' with
        | String h (String l s'') =>
            match hex_val h, hex_val l with
            | Some a, Some b => String (ascii_of_N (16 * a + b)) (unquote s'')
            | _, _ => keep
            end
        | _ => keep
        end
      else keep
  end.

(** [parse_qsl] with its default arguments: fields are separated by [&];
    a field without [=] or with an empty value is dropped; [+] stands for
    a space and percent escapes are decoded in names and values. *)
Fixpoint parse_fields (fields : list string) : list (string * string) :=
  match fields with
  | [] => []
  | name_value :: rest =>
      match Py.partition "=" name_value with
      | Some (n, String c v) =>
          (unquote (Py.replace "+" " " n),
           unquote (Py.replace "+" " " (String c v))) :: parse_fields rest
      | _ => parse_fields rest
      end
  end.

Definition parse_qsl (qs : string) : list (string * string) :=
  parse_fields (Py.split "&" qs).

(** [parse_qs]: every name with the list of its values, in the order of
    the query string. *)
Definition add_value (m : gmap string (list string)) (nv : string * string)
  : gmap string (list string) :=
  match m !! nv.1 with
  | Some vs => <[nv.1 := vs ++ [nv.2]]> m
  | None => <[nv.1 := [nv.2]]> m
  end.

Definition parse_qs (qs : string) : gmap string (list string) :=
  foldl add_value ∅ (parse_qsl qs).

End Urllib.

(** ** The values and the collaborators of the client *)

(** [ssl.VerifyMode]. *)
Inductive VerifyMode : Type := CERT_NONE | CERT_OPTIONAL | CERT_REQUIRED.

(** The values that the client passes as keyword arguments. *)
Inductive pyval : Type :=
  | VNone
  | VBool (b : bool)
  | VInt (z : Z)
  | VFloat (f : Py.pyfloat)
  | VStr (s : string)
  | VVerifyMode (m : VerifyMode).

(** A keyword-argument dictionary. *)
Abbreviation kwargs := (gmap string pyval).

(** The keyword arguments of a call written [f(k=v, ..., **d1, **d2)]: the
    dictionaries are merged from left to right, and a keyword given twice
    is a [TypeError]. *)
Definition kw_add (acc : result kwargs) (d : kwargs) : result kwargs :=
  a ← acc;
  if decide (a ##ₘ d) then Ok (a ∪ d) else Raise TypeError.

Definition keywords (ds : list kwargs) : result kwargs :=
  foldl kw_add (Ok ∅) ds.

(** A connected client and a sentinel are handles of the provider. *)
Definition handle : Type := nat.

(** A provider class: its [from_url] constructor. *)
Record Provider : Type := {
  from_url : string -> kwargs -> result handle
}.

(** [redis.sentinel.Sentinel]: the constructor and the method
    [master_for]. *)
Record SentinelClass : Type := {
  sentinel_new : list (string * Z) -> kwargs -> result handle;
  master_for : handle -> string -> kwargs -> result handle
}.

(** The calls made to the provider, in order. *)
Inductive call : Type :=
  | CallFromUrl (url : string) (kw : kwargs)
  | CallSentinel (hosts : list (string * Z)) (kw : kwargs)
  | CallMasterFor (sentinel : handle) (master_name : string) (kw : kwargs).

(** The instance attributes of [FlaskRedis]; [oid] is the identity of the
    object, which is what the extension registry holds. *)
Record FlaskRedis : Type := {
  oid : nat;
  _redis_client : option handle;
  provider_class : Provider;
  config_prefix : string;
  decode_responses : bool;
  provider_kwargs : kwargs
}.

(** The part of the Flask application that the client touches: [config]
    and the attribute [extensions], which may be missing. *)
Record App : Type := {
  config : gmap string string;
  extensions : option (gmap string nat)
}.

(** ** [flask_redis.client] *)

Module Client.

(** *** The parsers of the sentinel URL

    The methods below do not read [self]; they are functions of the
    parsed URL and of the parsed query. *)

Abbreviation query_params := (gmap string (list string)).

(** [query_params.get(key, [default])[0]], where the default is [None]
    or a string: [inj] embeds the strings of the query into the type of
    the default. *)
Definition get_first {A} (inj : string -> A) (q : query_params)
    (key : string) (default : A) : result A :=
  match q !! key with
  | None => Ok default
  | Some (v :: _) => Ok (inj v)
  | Some [] => Raise IndexError
  end.

Definition _extract_credentials (parsed_url : Urllib.ParseResult)
  : option string * option string :=
  (Urllib.username parsed_url, Urllib.password parsed_url).

(** The body of the loop of [_parse_hosts]. *)
Definition parse_host_port (host_port : string) : result (string * Z) :=
  if Py.contains ":" host_port then
    '(host, port) ← Py.unpack2 (Py.split1 ":" host_port);
    port ← Py.int port;
    Ok (host, port)
  else Ok (host_port, 26379).

(** The loop of [_parse_hosts], with the list [hosts] built so far. *)
Fixpoint parse_hosts_loop (tokens : list string) (hosts : list (string * Z))
  : result (list (string * Z)) :=
  match tokens with
  | [] => Ok hosts
  | host_port :: rest =>
      hp ← parse_host_port host_port;
      parse_hosts_loop rest (hosts ++ [hp])
  end.

Definition _parse_hosts (parsed_url : Urllib.ParseResult)
  : result (list (string * Z)) :=
  let netloc := Urllib.netloc parsed_url in
  hosts_part ←
    (if Py.contains "@" netloc then Py.item (Py.split1 "@" netloc) 1
     else Ok netloc);
  parse_hosts_loop (Py.split "," hosts_part) [].

Definition _parse_master_and_db (parsed_url : Urllib.ParseResult)
  : result (string * Z) :=
  let path := Py.lstrip "/" (Urllib.path parsed_url) in
  if Py.contains "/" path then
    '(master_name, db_part) ← Py.unpack2 (Py.split1 "/" path);
    db ← Py.int db_part;
    Ok (master_name, db)
  else Ok (path, 0).

Definition _parse_socket_timeout (q : query_params) : result (option Py.pyfloat) :=
  socket_timeout ← get_first Some q "socket_timeout" None;
  match socket_timeout with
  | Some s => f ← Py.float s; Ok (Some f)
  | None => Ok None
  end.

Definition _parse_ssl_enabled (scheme : string) (q : query_params) : result bool :=
  if String.eqb scheme "rediss+sentinel" then Ok true
  else
    ssl_param ← get_first id q "ssl" "False";
    Ok (String.eqb (Py.lower ssl_param) "true").

Definition _parse_ssl_cert_reqs (q : query_params) : result (option VerifyMode) :=
  ssl_cert_reqs ← get_first Some q "ssl_cert_reqs" None;
  match ssl_cert_reqs with
  | Some s =>
      if Py.truthy s then
        Ok (({[ "required" := CERT_REQUIRED; "optional" := CERT_OPTIONAL;
                "none" := CERT_NONE ]} : gmap string VerifyMode) !! Py.lower s)
      else Ok None
  | None => Ok None
  end.

(** [if v: d[key] = v]. *)
Definition set_if_truthy (key : string) (v : option string) (d : kwargs) : kwargs :=
  match v with
  | Some s => if Py.truthy s then <[key := VStr s]> d else d
  | None => d
  end.

Definition _parse_ssl_params (q : query_params) (ssl_enabled : bool) : result kwargs :=
  if ssl_enabled then
    ssl_cert_reqs ← _parse_ssl_cert_reqs q;
    ssl_keyfile ← get_first Some q "ssl_keyfile" None;
    ssl_certfile ← get_first Some q "ssl_certfile" None;
    ssl_ca_certs ← get_first Some q "ssl_ca_certs" None;
    let ssl_params : kwargs := {[ "ssl" := VBool true ]} in
    let ssl_params :=
      match ssl_cert_reqs with
      | Some m => <["ssl_cert_reqs" := VVerifyMode m]> ssl_params
      | None => ssl_params
      end in
    let ssl_params := set_if_truthy "ssl_keyfile" ssl_keyfile ssl_params in
    let ssl_params := set_if_truthy "ssl_certfile" ssl_certfile ssl_params in
    let ssl_params := set_if_truthy "ssl_ca_certs" ssl_ca_certs ssl_params in
    Ok ssl_params
  else Ok ∅.

Definition _parse_auth_params (username password : option string) : kwargs :=
  let auth_params : kwargs := ∅ in
  let auth_params := set_if_truthy "username" username auth_params in
  let auth_params := set_if_truthy "password" password auth_params in
  auth_params.

(** The two dictionaries that [_parse_sentinel_parameters] returns. *)
Record sentinel_kwargs_t : Type := {
  sk_hosts : list (string * Z);
  sk_socket_timeout : option Py.pyfloat;
  sk_ssl_params : kwargs;
  sk_auth_params : kwargs;
  sk_master_name : string
}.

Record client_kwargs_t : Type := {
  ck_db : Z;
  ck_socket_timeout : option Py.pyfloat;
  ck_ssl_params : kwargs;
  ck_auth_params : kwargs
}.

Definition _parse_sentinel_parameters (parsed_url : Urllib.ParseResult)
  : result (sentinel_kwargs_t * client_kwargs_t) :=
  let '(username, password) := _extract_credentials parsed_url in
  hosts ← _parse_hosts parsed_url;
  '(master_name, db) ← _parse_master_and_db parsed_url;
  let q := Urllib.parse_qs (Urllib.query parsed_url) in
  socket_timeout ← _parse_socket_timeout q;
  ssl_enabled ← _parse_ssl_enabled (Urllib.scheme parsed_url) q;
  ssl_params ← _parse_ssl_params q ssl_enabled;
  let auth_params := _parse_auth_params username password in
  Ok ({| sk_hosts := hosts; sk_socket_timeout := socket_timeout;
         sk_ssl_params := ssl_params; sk_auth_params := auth_params;
         sk_master_name := master_name |},
      {| ck_db := db; ck_socket_timeout := socket_timeout;
         ck_ssl_params := ssl_params; ck_auth_params := auth_params |}).

(** *** The object, the application and the provider

    [init_app] runs on a state: the instance [self], the application and
    the calls made to the provider so far.  A raised exception keeps the
    state as it is at the raise. *)

Record State : Type := {
  self : FlaskRedis;
  app : App;
  calls : list call
}.

Definition M (A : Type) : Type := State -> result A * State.

Global Instance M_ret : MRet M := fun A a st => (Ok a, st).
Global Instance M_bind : MBind M := fun A B k m st =>
  match m st with
  | (Ok a, st') => k a st'
  | (Raise e, st') => (Raise e, st')
  end.

Definition raise {A} (e : exn) : M A := fun st => (Raise e, st).
Definition lift {A} (r : result A) : M A := fun st => (r, st).
Definition get_self : M FlaskRedis := fun st => (Ok (self st), st).
Definition get_app : M App := fun st => (Ok (app st), st).

Definition set_self (f : FlaskRedis -> FlaskRedis) : M unit := fun st =>
  (Ok tt, {| self := f (self st); app := app st; calls := calls st |}).
Definition set_app (f : App -> App) : M unit := fun st =>
  (Ok tt, {| self := self st; app := f (app st); calls := calls st |}).

(** A call that reaches the provider is recorded, whatever it returns. *)
Definition provider_call (c : call) (r : result handle) : M handle := fun st =>
  (r, {| self := self st; app := app st; calls := calls st ++ [c] |}).

Definition with_redis_client (c : handle) (o : FlaskRedis) : FlaskRedis :=
  {| oid := oid o; _redis_client := Some c;
     provider_class := provider_class o; config_prefix := config_prefix o;
     decode_responses := decode_responses o;
     provider_kwargs := provider_kwargs o |}.

(** [self.provider_kwargs.update(kwargs)]. *)
Definition update_provider_kwargs (kw : kwargs) (o : FlaskRedis) : FlaskRedis :=
  {| oid := oid o; _redis_client := _redis_client o;
     provider_class := provider_class o; config_prefix := config_prefix o;
     decode_responses := decode_responses o;
     provider_kwargs := kw ∪ provider_kwargs o |}.

(** [app.extensions[key] = o], after [app.extensions = {}] when the
    attribute is missing. *)
Definition register (key : string) (o : nat) (a : App) : App :=
  {| config := config a;
     extensions := Some (<[key := o]> (default ∅ (extensions a))) |}.

Definition timeout_val (t : option Py.pyfloat) : pyval :=
  match t with
  | Some f => VFloat f
  | None => VNone
  end.

(** The module-level name [Sentinel]: the class, or [None] when redis-py
    could not be imported. *)
Record Globals : Type := {
  Sentinel : option SentinelClass
}.

Definition _init_standard_client (redis_url : string) : M unit :=
  o ← get_self;
  kw ← lift (keywords [ {[ "decode_responses" := VBool (decode_responses o) ]};
                        provider_kwargs o ]);
  c ← provider_call (CallFromUrl redis_url kw)
        (from_url (provider_class o) redis_url kw);
  set_self (with_redis_client c).

Definition _init_sentinel_client (cls : SentinelClass)
    (parsed_url : Urllib.ParseResult) : M unit :=
  '(sentinel_kwargs, client_kwargs) ← lift (_parse_sentinel_parameters parsed_url);
  o ← get_self;
  kw ← lift (keywords [ {[ "socket_timeout" :=
                             timeout_val (sk_socket_timeout sentinel_kwargs) ]};
                        sk_ssl_params sentinel_kwargs;
                        sk_auth_params sentinel_kwargs;
                        provider_kwargs o ]);
  sentinel ← provider_call (CallSentinel (sk_hosts sentinel_kwargs) kw)
               (sentinel_new cls (sk_hosts sentinel_kwargs) kw);
  kw ← lift (keywords [ {[ "db" := VInt (ck_db client_kwargs);
                           "socket_timeout" :=
                             timeout_val (ck_socket_timeout client_kwargs);
                           "decode_responses" := VBool (decode_responses o) ]};
                        ck_ssl_params client_kwargs;
                        ck_auth_params client_kwargs;
                        provider_kwargs o ]);
  c ← provider_call
        (CallMasterFor sentinel (sk_master_name sentinel_kwargs) kw)
        (master_for cls sentinel (sk_master_name sentinel_kwargs) kw);
  set_self (with_redis_client c).

Definition is_sentinel_scheme (scheme : string) : bool :=
  bool_decide (scheme ∈ ["redis+sentinel"; "rediss+sentinel"]).

(** [app.config.get(f"{self.config_prefix}_URL", "redis://localhost:6379/0")]. *)
Definition configured_url (o : FlaskRedis) (a : App) : string :=
  default "redis://localhost:6379/0" (config a !! (config_prefix o +:+ "_URL")).

Definition init_app (G : Globals) (kw : kwargs) : M unit :=
  o ← get_self;
  a ← get_app;
  let redis_url := configured_url o a in
  _ ← set_self (update_provider_kwargs kw);
  parsed_url ← lift (Urllib.urlparse redis_url);
  let scheme := Urllib.scheme parsed_url in
  _ ← (if is_sentinel_scheme scheme then
         match Sentinel G with
         | None => raise ImportError
         | Some cls => _init_sentinel_client cls parsed_url
         end
       else _init_standard_client redis_url);
  set_app (register (Py.lower (config_prefix o)) (oid o)).

End Client.

(** ** The resolver as the specification words it

    The definitions of this module follow the sentences of the
    specification, not the code; the properties below compare them with
    [Client]. *)

Module Spec.

(** [f] on every element from left to right, up to the first exception. *)
Fixpoint traverse {A B} (f : A -> result B) (l : list A) : result (list B) :=
  match l with
  | [] => Ok []
  | x :: xs => y ← f x; ys ← traverse f xs; Ok (y :: ys)
  end.

(** "after stripping any embedded credentials, delimited by [@]": the text
    after the first [@], or the whole authority when it has none. *)
Definition strip_credentials (authority : string) : string :=
  match Py.partition "@" authority with
  | Some (_, rest) => rest
  | None => authority
  end.

(** "for each [host[:port]] token, parse port as integer if present, else
    default to 26379". *)
Definition host_port (token : string) : result (string * Z) :=
  match Py.partition ":" token with
  | Some (host, port) => port ← Py.int port; Ok (host, port)
  | None => Ok (token, 26379)
  end.

(** "split the authority on [,]", each token in its place. *)
Definition coordinator_hosts (authority : string) : result (list (string * Z)) :=
  traverse host_port (Py.split "," (strip_credentials authority)).

(** The three texts of a sentinel URL that go to [int] or [float], cut
    where the code cuts them:
    - in each piece of the authority between commas, taken after the
      first [@] of the authority, the text after the first [:] of the
      piece (so the piece [[::1]:26379] gives the text [:1]:26379]);
    - in the path without its leading slashes, the text after the first
      [/];
    - in the query, the first value of [socket_timeout] that is not blank
      (a later value and a blank one are not read).
    Each predicate says that the text, when the URL has it, is accepted. *)
Definition port_ok (token : string) : bool :=
  match Py.partition ":" token with
  | Some (_, port) => is_ok (Py.int port)
  | None => true
  end.

Definition ports_ok (p : Urllib.ParseResult) : bool :=
  forallb port_ok (Py.split "," (strip_credentials (Urllib.netloc p))).

Definition db_ok (p : Urllib.ParseResult) : bool :=
  match Py.partition "/" (Py.lstrip "/" (Urllib.path p)) with
  | Some (_, db) => is_ok (Py.int db)
  | None => true
  end.

(** The values that a list of pairs gives to [key], in order. *)
Definition values_of (key : string) (pairs : list (string * string)) : list string :=
  (filter (fun nv => nv.1 = key) pairs).*2.

(** The first value that the query gives to [key]. *)
Fixpoint first_value (key : string) (pairs : list (string * string)) : option string :=
  match pairs with
  | [] => None
  | (n, v) :: rest => if String.eqb n key then Some v else first_value key rest
  end.

Definition timeout_ok (p : Urllib.ParseResult) : bool :=
  match first_value "socket_timeout" (Urllib.parse_qsl (Urllib.query p)) with
  | Some v => is_ok (Py.float v)
  | None => true
  end.

Definition fields_ok (p : Urllib.ParseResult) : bool :=
  ports_ok p && db_ok p && timeout_ok p.

(** A credential that is present but empty, read as absent. *)
Definition absent_if_empty (v : option string) : option string :=
  match v with
  | Some EmptyString => None
  | _ => v
  end.

(** "the same URL with the [rediss+sentinel] scheme and no query
    parameters". *)
Definition secure_without_query (p : Urllib.ParseResult) : Urllib.ParseResult :=
  {| Urllib.scheme := "rediss+sentinel"; Urllib.netloc := Urllib.netloc p;
     Urllib.path := Urllib.path p; Urllib.query := "";
     Urllib.fragment := Urllib.fragment p |}.

End Spec.

(** ** A provider, an application and an instance to run the client on *)

Module Fixture.

Definition provider : Provider :=
  {| from_url := fun _ _ => Ok 1%nat |}.

Definition sentinel_class : SentinelClass :=
  {| sentinel_new := fun _ _ => Ok 2%nat;
     master_for := fun _ _ _ => Ok 3%nat |}.

Definition with_sentinel : Client.Globals :=
  {| Client.Sentinel := Some sentinel_class |}.

Definition without_sentinel : Client.Globals :=
  {| Client.Sentinel := None |}.

(** [FlaskRedis()] before [init_app]. *)
Definition client : FlaskRedis :=
  {| oid := 0%nat; _redis_client := None; provider_class := provider;
     config_prefix := "REDIS"; decode_responses := true;
     provider_kwargs := ∅ |}.

(** An application configured with [REDIS_URL]. *)
Definition application (url : string) : App :=
  {| config := {[ "REDIS_URL" := url ]}; extensions := Some ∅ |}.

Definition state (url : string) : Client.State :=
  {| Client.self := client; Client.app := application url; Client.calls := [] |}.

End Fixture.

(** ** Writing an authority and a path

    The inverse of the splitting that the parsers do, to state what they
    recover. *)

Module Text.

(** The number of occurrences of [c] in [s]. *)
Fixpoint count (c : ascii) (s : string) : nat :=
  match s with
  | EmptyString => 0%nat
  | String d s' => ((if Ascii.eqb c d then 1 else 0) + count c s')%nat
  end.

(** [c.join(l)]. *)
Fixpoint join (c : ascii) (l : list string) : string :=
  match l with
  | [] => EmptyString
  | [x] => x
  | x :: xs => x +:+ String c (join c xs)
  end.

(** A host token written from a host and the text of its port, when it
    has one. *)
Definition host_token (hp : string * option string) : string :=
  match hp.2 with
  | Some port => hp.1 +:+ String ":" port
  | None => hp.1
  end.


(** An authority: the user information, when there is one, before [@],
    then the host tokens separated by commas. *)
Definition authority (userinfo : option string) (hosts : list (string * option string))
  : string :=
  let body := join "," (host_token <$> hosts) in
  match userinfo with
  | Some ui => ui +:+ String "@" body
  | None => body
  end.

(** [k] slashes. *)
Fixpoint slashes (k : nat) : string :=
  match k with
  | O => EmptyString
  | S k' => String "/" (slashes k')
  end.

End Text.

(** ** The constructor and [from_custom_provider] *)

Module Class.

(** The module [redis] as the client uses it: its two client classes. *)
Record RedisModule : Type := {
  StrictRedis : Provider;
  Redis : Provider
}.

(** The module-level names [redis] and [Sentinel] after the guarded
    import at the top of the file: both imported, or both [None] when
    either import failed. *)
Definition module_level (imported : option (RedisModule * SentinelClass))
  : option RedisModule * Client.Globals :=
  match imported with
  | Some (r, s) => (Some r, {| Client.Sentinel := Some s |})
  | None => (None, {| Client.Sentinel := None |})
  end.

(** What the constructors can raise besides the exceptions of
    [init_app]. *)
Inductive ctor_exn : Type :=
  | AttributeError
  | AssertionError
  | FromInitApp (e : exn).

(** The outcome of a constructor call: the new instance or an exception,
    with the application (when one was passed) and the calls made to the
    provider as the call leaves them. *)
Record Outcome : Type := {
  instance : ctor_exn + FlaskRedis;
  app_after : option App;
  calls_after : list call
}.

(** [instance.init_app(app)] on an optional application. *)
Definition init_if_app (G : Client.Globals) (o : FlaskRedis) (app : option App)
    (calls : list call) : Outcome :=
  match app with
  | None => {| instance := inr o; app_after := None; calls_after := calls |}
  | Some a =>
      match Client.init_app G ∅
              {| Client.self := o; Client.app := a; Client.calls := calls |} with
      | (Ok _, st) =>
          {| instance := inr (Client.self st); app_after := Some (Client.app st);
             calls_after := Client.calls st |}
      | (Raise e, st) =>
          {| instance := inl (FromInitApp e); app_after := Some (Client.app st);
             calls_after := Client.calls st |}
      end
  end.

(** [FlaskRedis.__init__]; [new_oid] is the identity of the object being
    built, [redis] the module-level name [redis] ([None] when the import
    failed) and [kw] the keyword arguments left after the named ones. *)
Definition __init__ (redis : option RedisModule) (G : Client.Globals)
    (new_oid : nat) (app : option App) (strict : bool) (config_prefix : string)
    (decode_responses : bool) (kw : kwargs) (calls : list call) : Outcome :=
  match redis with
  | None =>
      {| instance := inl AttributeError; app_after := app; calls_after := calls |}
  | Some r =>
      let o := {| oid := new_oid; _redis_client := None;
                  provider_class := if strict then StrictRedis r else Redis r;
                  config_prefix := config_prefix;
                  decode_responses := decode_responses;
                  provider_kwargs := kw |} in
      init_if_app G o app calls
  end.

Definition with_provider_class (provider : Provider) (o : FlaskRedis) : FlaskRedis :=
  {| oid := oid o; _redis_client := _redis_client o;
     provider_class := provider; config_prefix := config_prefix o;
     decode_responses := decode_responses o;
     provider_kwargs := provider_kwargs o |}.

(** [FlaskRedis.from_custom_provider]: the assertion on the provider,
    the call of [cls] on the keyword arguments (which never hold the
    application, a parameter of its own), the provider
    class replaced, then [init_app]. *)
Definition from_custom_provider (redis : option RedisModule) (G : Client.Globals)
    (new_oid : nat) (provider : option Provider) (app : option App)
    (strict : bool) (config_prefix : string) (decode_responses : bool)
    (kw : kwargs) (calls : list call) : Outcome :=
  match provider with
  | None =>
      {| instance := inl AssertionError; app_after := app; calls_after := calls |}
  | Some provider =>
      let built :=
        __init__ redis G new_oid None strict config_prefix decode_responses kw calls in
      match instance built with
      | inl e => {| instance := inl e; app_after := app; calls_after := calls_after built |}
      | inr o => init_if_app G (with_provider_class provider o) app (calls_after built)
      end
  end.

End Class.

(** ** What a construction path may change *)

Module Effects.

(** The effect of [_init_standard_client] and [_init_sentinel_client] on
    the state they start from: the application is not touched, calls are
    only added, and the instance changes in its client alone, and only
    when the path returns. *)
Definition path_effect (st1 : Client.State) (out : result unit * Client.State) : Prop :=
  Client.app out.2 = Client.app st1
  /\ (exists new, Client.calls out.2 = Client.calls st1 ++ new)
  /\ match out.1 with
     | Ok _ => exists c, Client.self out.2 = Client.with_redis_client c (Client.self st1)
     | Raise _ => Client.self out.2 = Client.self st1
     end.

End Effects.

(** * Properties *)

(** ** The library functions on sample inputs *)

Example int_grouped : Py.int " -1_000 " = Ok (-1000). Proof. reflexivity. Qed.
Example int_word : Py.int "abc" = Raise ValueError. Proof. reflexivity. Qed.
Example float_2_5 : Py.float "2.5" = Ok (Py.PyFinite false (5 # 2)). Proof. reflexivity. Qed.
Example float_inf : Py.float "-Infinity" = Ok (Py.PyInf true). Proof. reflexivity. Qed.
Example float_dot : Py.float "." = Raise ValueError. Proof. reflexivity. Qed.
Example int_plain : Py.int "26379" = Ok 26379. Proof. reflexivity. Qed.
Example int_empty : Py.int "" = Raise ValueError. Proof. reflexivity. Qed.
Example int_trailing_underscore : Py.int "1_" = Raise ValueError. Proof. reflexivity. Qed.
Example float_exp : Py.float "1.e2" = Ok (Py.PyFinite false (100 # 1)). Proof. reflexivity. Qed.
Example float_word : Py.float "soon" = Raise ValueError. Proof. reflexivity. Qed.
Example float_empty : Py.float "" = Raise ValueError. Proof. reflexivity. Qed.
Example urlparse_sentinel :
  Urllib.urlparse "redis+sentinel://localhost:26379/mymaster/0"
  = Ok {| Urllib.scheme := "redis+sentinel"; Urllib.netloc := "localhost:26379";
          Urllib.path := "/mymaster/0"; Urllib.query := "";
          Urllib.fragment := "" |}.
Proof. reflexivity. Qed.
Example urlparse_query :
  Urllib.urlparse "REDISS+Sentinel://u:p@h1:1,h2/grp/3?a=1&b=2#x"
  = Ok {| Urllib.scheme := "rediss+sentinel"; Urllib.netloc := "u:p@h1:1,h2";
          Urllib.path := "/grp/3"; Urllib.query := "a=1&b=2";
          Urllib.fragment := "x" |}.
Proof. reflexivity. Qed.
Example urlparse_bracket : Urllib.urlparse "redis://[::1/0" = Raise ValueError.
Proof. reflexivity. Qed.
Example parse_qsl_blank :
  Urllib.parse_qsl "a=1&&b&c=&a=x+y%21&d=%zz"
  = [("a", "1"); ("a", "x y!"); ("d", "%zz")].
Proof. reflexivity. Qed.
Example parse_qs_first :
  Urllib.parse_qs "a=1&b=2&a=3" !! "a" = Some ["1"; "3"].
Proof. vm_compute. reflexivity. Qed.
Example keywords_merged :
  keywords [ {[ "db" := VInt 0 ]}; {[ "ssl" := VBool true ]}; ∅ ]
  = Ok {[ "db" := VInt 0; "ssl" := VBool true ]}.
Proof. vm_compute. reflexivity. Qed.
Example keywords_twice :
  keywords [ {[ "db" := VInt 0 ]}; {[ "db" := VInt 1 ]} ] = Raise TypeError.
Proof. vm_compute. reflexivity. Qed.
Example sentinel_parameters_plain :
  (p ← Urllib.urlparse "redis+sentinel://localhost:26379/mymaster/0";
   Client._parse_sentinel_parameters p)
  = Ok ({| Client.sk_hosts := [("localhost", 26379)];
           Client.sk_socket_timeout := None;
           Client.sk_ssl_params := ∅; Client.sk_auth_params := ∅;
           Client.sk_master_name := "mymaster" |},
        {| Client.ck_db := 0; Client.ck_socket_timeout := None;
           Client.ck_ssl_params := ∅; Client.ck_auth_params := ∅ |}).
Proof. vm_compute. reflexivity. Qed.

(** ** Strings *)

Lemma contains_true (c : ascii) (s : string) :
  Py.contains c s = true -> exists l r, Py.partition c s = Some (l, r).
Proof.
  induction s as [|d s IH]; simpl; [done|].
  destruct (Ascii.eqb c d); [eauto|].
  intros H. destruct (IH H) as (l & r & ->). eauto.
Qed.

Lemma contains_false (c : ascii) (s : string) :
  Py.contains c s = false -> Py.partition c s = None.
Proof.
  induction s as [|d s IH]; simpl; [done|].
  destruct (Ascii.eqb c d); [done|].
  intros H. by rewrite (IH H).
Qed.

(** The pieces of [split] are never none. *)
Lemma split_nonempty (c : ascii) (s : string) : Py.split c s <> [].
Proof.
  induction s as [|d s IH]; simpl; [done|].
  destruct (Ascii.eqb c d); [done|]. by destruct (Py.split c s).
Qed.

(** ** The query parser *)

Lemma unquote_cons (c : ascii) (s : string) : Urllib.unquote (String c s) <> "".
Proof.
  destruct s as [|h [|l t]]; cbn -[Ascii.eqb Urllib.hex_val];
    repeat case_match; done.
Qed.

(** [parse_qsl] keeps no blank value. *)
Lemma parse_fields_values (fields : list string) (n v : string) :
  (n, v) ∈ Urllib.parse_fields fields -> v <> "".
Proof.
  induction fields as [|f fs IH]; cbn [Urllib.parse_fields];
    [by intros ?%elem_of_nil|].
  destruct (Py.partition "=" f) as [[a [|c b]]|]; try done.
  intros [H|H]%elem_of_cons; [|by apply IH].
  injection H as -> ->. cbn [Py.replace]. apply unquote_cons.
Qed.

Lemma parse_qs_fold (pairs : list (string * string))
    (m : gmap string (list string)) (key : string) :
  foldl Urllib.add_value m pairs !! key
  = match m !! key, Spec.values_of key pairs with
    | Some vs, ws => Some (vs ++ ws)
    | None, [] => None
    | None, ws => Some ws
    end.
Proof.
  revert m. induction pairs as [|[n v] pairs IH]; intros m; simpl.
  - unfold Spec.values_of; simpl. destruct (m !! key); by rewrite ?app_nil_r.
  - rewrite IH. unfold Spec.values_of, Urllib.add_value. simpl.
    rewrite filter_cons. simpl. destruct (decide (n = key)) as [->|Hne].
    + simpl. destruct (m !! key) as [vs|]; rewrite lookup_insert_eq.
      * by rewrite <- app_assoc.
      * done.
    + destruct (m !! n) as [vs|]; by rewrite lookup_insert_ne.
Qed.

Lemma parse_qs_lookup (qs key : string) :
  Urllib.parse_qs qs !! key
  = match Spec.values_of key (Urllib.parse_qsl qs) with
    | [] => None
    | ws => Some ws
    end.
Proof. unfold Urllib.parse_qs. by rewrite parse_qs_fold, lookup_empty. Qed.

Lemma first_value_head (key : string) (pairs : list (string * string)) :
  Spec.first_value key pairs = head (Spec.values_of key pairs).
Proof.
  induction pairs as [|[n v] pairs IH]; [done|].
  unfold Spec.values_of. simpl. rewrite filter_cons. simpl.
  destruct (String.eqb_spec n key) as [->|Hne].
  - by rewrite decide_True.
  - by rewrite decide_False.
Qed.

(** On a parsed query, [get_first] never indexes an empty list: it is the
    first value of the key, or the default. *)
Lemma get_first_parse_qs {A} (inj : string -> A) (qs key : string) (d : A) :
  Client.get_first inj (Urllib.parse_qs qs) key d
  = Ok (from_option inj d (Spec.first_value key (Urllib.parse_qsl qs))).
Proof.
  unfold Client.get_first. rewrite parse_qs_lookup, first_value_head.
  by destruct (Spec.values_of key (Urllib.parse_qsl qs)).
Qed.

(** ** Numbers *)

Lemma int_raises (s : string) (e : exn) : Py.int s = Raise e -> e = ValueError.
Proof.
  unfold Py.int. destruct (match Py.strip_space s with "" => _ | _ => _ end).
  destruct (Py.read_digits _ _ _); congruence.
Qed.

Lemma float_raises (s : string) (e : exn) : Py.float s = Raise e -> e = ValueError.
Proof.
  unfold Py.float. destruct (Py.drop_underscores s " "); [|congruence].
  destruct (Py.read_sign _). repeat case_match; congruence.
Qed.

(** ** The coordinator hosts *)

Lemma parse_host_port_spec (token : string) :
  Client.parse_host_port token = Spec.host_port token.
Proof.
  unfold Client.parse_host_port, Spec.host_port, Py.split1.
  destruct (Py.contains ":" token) eqn:E.
  - destruct (contains_true _ _ E) as (l & r & ->). done.
  - by rewrite (contains_false _ _ E).
Qed.

Lemma parse_hosts_loop_spec (tokens : list string) (acc : list (string * Z)) :
  Client.parse_hosts_loop tokens acc
  = (hs ← Spec.traverse Spec.host_port tokens; Ok (acc ++ hs)).
Proof.
  revert acc. induction tokens as [|t ts IH]; intros acc; simpl.
  - by rewrite app_nil_r.
  - rewrite parse_host_port_spec. destruct (Spec.host_port t) as [hp|e]; [|done].
    simpl. rewrite IH. destruct (Spec.traverse Spec.host_port ts); [|done].
    simpl. by rewrite <- app_assoc.
Qed.

Lemma parse_hosts_spec (p : Urllib.ParseResult) :
  Client._parse_hosts p = Spec.coordinator_hosts (Urllib.netloc p).
Proof.
  unfold Client._parse_hosts, Spec.coordinator_hosts, Spec.strip_credentials,
    Py.split1.
  destruct (Py.contains "@" (Urllib.netloc p)) eqn:E.
  - destruct (contains_true _ _ E) as (l & r & ->). simpl.
    rewrite parse_hosts_loop_spec.
    by destruct (Spec.traverse Spec.host_port (Py.split "," r)).
  - rewrite (contains_false _ _ E). simpl. rewrite parse_hosts_loop_spec.
    by destruct (Spec.traverse Spec.host_port _).
Qed.

Lemma traverse_Forall2 {A B} (f : A -> result B) (l : list A) (ys : list B) :
  Spec.traverse f l = Ok ys -> Forall2 (fun x y => f x = Ok y) l ys.
Proof.
  revert ys. induction l as [|x xs IH]; intros ys; simpl.
  - intros [= <-]. constructor.
  - destruct (f x) as [y|] eqn:Hx; [|done]. simpl.
    destruct (Spec.traverse f xs) as [zs|]; [|done]. simpl.
    intros [= <-]. constructor; auto.
Qed.

Lemma host_port_ok (token : string) :
  match Spec.host_port token with
  | Ok _ => Spec.port_ok token = true
  | Raise e => e = ValueError /\ Spec.port_ok token = false
  end.
Proof.
  unfold Spec.host_port, Spec.port_ok.
  destruct (Py.partition ":" token) as [[h port]|]; [|done].
  destruct (Py.int port) as [z|e] eqn:Hint; simpl; [done|].
  split; [by eapply int_raises|done].
Qed.

Lemma traverse_host_port_ok (tokens : list string) :
  match Spec.traverse Spec.host_port tokens with
  | Ok _ => forallb Spec.port_ok tokens = true
  | Raise e => e = ValueError /\ forallb Spec.port_ok tokens = false
  end.
Proof.
  induction tokens as [|t ts IH]; cbn [Spec.traverse forallb]; [done|].
  pose proof (host_port_ok t) as Ht.
  destruct (Spec.host_port t) as [hp|e]; simpl.
  - rewrite Ht. simpl. by destruct (Spec.traverse Spec.host_port ts).
  - destruct Ht as [-> ->]. done.
Qed.

(** ** The other fields of a sentinel URL *)

Lemma parse_master_and_db_spec (p : Urllib.ParseResult) :
  Client._parse_master_and_db p
  = match Py.partition "/" (Py.lstrip "/" (Urllib.path p)) with
    | Some (master_name, db_part) => db ← Py.int db_part; Ok (master_name, db)
    | None => Ok (Py.lstrip "/" (Urllib.path p), 0)
    end.
Proof.
  unfold Client._parse_master_and_db, Py.split1.
  destruct (Py.contains "/" _) eqn:E.
  - destruct (contains_true _ _ E) as (l & r & ->). done.
  - by rewrite (contains_false _ _ E).
Qed.

Lemma parse_master_and_db_ok (p : Urllib.ParseResult) :
  match Client._parse_master_and_db p with
  | Ok _ => Spec.db_ok p = true
  | Raise e => e = ValueError /\ Spec.db_ok p = false
  end.
Proof.
  rewrite parse_master_and_db_spec. unfold Spec.db_ok.
  destruct (Py.partition "/" _) as [[name d]|]; [|done].
  destruct (Py.int d) as [z|e] eqn:Hint; simpl; [done|].
  split; [by eapply int_raises|done].
Qed.

Lemma parse_socket_timeout_spec (qs : string) :
  Client._parse_socket_timeout (Urllib.parse_qs qs)
  = match Spec.first_value "socket_timeout" (Urllib.parse_qsl qs) with
    | Some v => f ← Py.float v; Ok (Some f)
    | None => Ok None
    end.
Proof.
  unfold Client._parse_socket_timeout. rewrite get_first_parse_qs.
  by destruct (Spec.first_value _ _).
Qed.

Lemma parse_socket_timeout_ok (p : Urllib.ParseResult) :
  match Client._parse_socket_timeout (Urllib.parse_qs (Urllib.query p)) with
  | Ok _ => Spec.timeout_ok p = true
  | Raise e => e = ValueError /\ Spec.timeout_ok p = false
  end.
Proof.
  rewrite parse_socket_timeout_spec. unfold Spec.timeout_ok.
  destruct (Spec.first_value _ _) as [v|]; [|done].
  destruct (Py.float v) as [f|e] eqn:Hf; simpl; [done|].
  split; [by eapply float_raises|done].
Qed.

Lemma parse_ssl_enabled_spec (scheme qs : string) :
  Client._parse_ssl_enabled scheme (Urllib.parse_qs qs)
  = Ok (String.eqb scheme "rediss+sentinel"
        || String.eqb
             (Py.lower (default "False"
                          (Spec.first_value "ssl" (Urllib.parse_qsl qs))))
             "true").
Proof.
  unfold Client._parse_ssl_enabled. rewrite get_first_parse_qs.
  destruct (String.eqb scheme _); [done|].
  by destruct (Spec.first_value _ _).
Qed.

Lemma parse_ssl_cert_reqs_total (qs : string) :
  exists m, Client._parse_ssl_cert_reqs (Urllib.parse_qs qs) = Ok m.
Proof.
  unfold Client._parse_ssl_cert_reqs. rewrite get_first_parse_qs.
  destruct (Spec.first_value _ _) as [v|]; simpl; [|eauto].
  destruct (Py.truthy v); eauto.
Qed.

Lemma set_if_truthy_lookup (key : string) (v : option string) (d : kwargs) (k : string) :
  k <> key -> Client.set_if_truthy key v d !! k = d !! k.
Proof.
  intros Hne. unfold Client.set_if_truthy. destruct v as [s|]; [|done].
  destruct (Py.truthy s); [|done]. by rewrite lookup_insert_ne.
Qed.

(** The security parameters are always produced; they are empty when
    security is off and carry [ssl=True] when it is on. *)
Lemma parse_ssl_params_total (qs : string) (ssl_enabled : bool) :
  exists m, Client._parse_ssl_params (Urllib.parse_qs qs) ssl_enabled = Ok m
    /\ (ssl_enabled = false -> m = ∅)
    /\ (ssl_enabled = true -> m !! "ssl" = Some (VBool true)).
Proof.
  unfold Client._parse_ssl_params. destruct ssl_enabled; [|by eexists].
  destruct (parse_ssl_cert_reqs_total qs) as [c ->].
  rewrite !get_first_parse_qs. simpl. eexists. split; [done|]. split; [done|].
  intros _. rewrite !set_if_truthy_lookup by done.
  destruct c; [by rewrite lookup_insert_ne|done].
Qed.

(** [_parse_sentinel_parameters] returns exactly when the three numeric
    fields are well formed, and raises nothing but [ValueError]. *)
Lemma parse_sentinel_parameters_ok (p : Urllib.ParseResult) :
  match Client._parse_sentinel_parameters p with
  | Ok _ => Spec.fields_ok p = true
  | Raise e => e = ValueError /\ Spec.fields_ok p = false
  end.
Proof.
  unfold Client._parse_sentinel_parameters, Spec.fields_ok, Spec.ports_ok.
  simpl. rewrite parse_hosts_spec. unfold Spec.coordinator_hosts.
  pose proof (traverse_host_port_ok
    (Py.split "," (Spec.strip_credentials (Urllib.netloc p)))) as Hh.
  destruct (Spec.traverse _ _) as [hosts|e]; simpl;
    [rewrite Hh | by destruct Hh as [-> ->]].
  pose proof (parse_master_and_db_ok p) as Hd.
  destruct (Client._parse_master_and_db p) as [[name db]|e]; simpl;
    [rewrite Hd | by destruct Hd as [-> ->]].
  pose proof (parse_socket_timeout_ok p) as Ht.
  destruct (Client._parse_socket_timeout _) as [t|e]; simpl;
    [rewrite Ht | by destruct Ht as [-> ->]].
  rewrite parse_ssl_enabled_spec. simpl.
  destruct (parse_ssl_params_total (Urllib.query p)
    (String.eqb (Urllib.scheme p) "rediss+sentinel"
     || String.eqb
          (Py.lower (default "False"
             (Spec.first_value "ssl" (Urllib.parse_qsl (Urllib.query p)))))
          "true")) as (m & -> & _).
  done.
Qed.

(** ** [init_app] and its two paths *)

Import Client.

Section InitApp.

Context (G : Globals) (kw : kwargs) (st : State).

(** [init_app] step by step: the keyword arguments are stored, the
    configured URL is parsed, one of the two paths runs, and the instance
    is registered when the path returns. *)
Lemma init_app_unfold :
  init_app G kw st
  = let url := configured_url (self st) (app st) in
    let st1 := {| self := update_provider_kwargs kw (self st);
                  app := app st; calls := calls st |} in
    match Urllib.urlparse url with
    | Raise e => (Raise e, st1)
    | Ok p =>
        match (if is_sentinel_scheme (Urllib.scheme p) then
                 match Sentinel G with
                 | None => raise ImportError
                 | Some cls => _init_sentinel_client cls p
                 end
               else _init_standard_client url) st1 with
        | (Ok _, st2) =>
            (Ok tt, {| self := self st2;
                       app := register (Py.lower (config_prefix (self st)))
                                (oid (self st)) (app st2);
                       calls := calls st2 |})
        | (Raise e, st2) => (Raise e, st2)
        end
    end.
Proof.
  unfold init_app, mbind, M_bind, get_self, get_app, set_self, lift. simpl.
  destruct (Urllib.urlparse _); reflexivity.
Qed.

Lemma init_standard_client_unfold (url : string) :
  _init_standard_client url st
  = match keywords [ {[ "decode_responses" := VBool (decode_responses (self st)) ]};
                     provider_kwargs (self st) ] with
    | Raise e => (Raise e, st)
    | Ok k =>
        let called := calls st ++ [CallFromUrl url k] in
        match from_url (provider_class (self st)) url k with
        | Ok c => (Ok tt, {| self := with_redis_client c (self st);
                             app := app st; calls := called |})
        | Raise e => (Raise e, {| self := self st; app := app st; calls := called |})
        end
    end.
Proof.
  unfold _init_standard_client, mbind, M_bind, get_self, lift, provider_call,
    set_self.
  destruct (keywords _) as [k|e]; [|done].
  by destruct (from_url _ _ _).
Qed.

(** An exception of the parsers leaves [_init_sentinel_client] before it
    touches the provider or the instance. *)
Lemma init_sentinel_client_raise (cls : SentinelClass) (p : Urllib.ParseResult)
    (e : exn) :
  _parse_sentinel_parameters p = Raise e ->
  _init_sentinel_client cls p st = (Raise e, st).
Proof.
  intros H. unfold _init_sentinel_client, mbind, M_bind, lift. by rewrite H.
Qed.

End InitApp.

(** What a successful [_parse_sentinel_parameters] is made of. *)

Lemma parse_sentinel_parameters_inv (p : Urllib.ParseResult)
    (sk : sentinel_kwargs_t) (ck : client_kwargs_t) :
  _parse_sentinel_parameters p = Ok (sk, ck) ->
  let q := Urllib.parse_qs (Urllib.query p) in
  exists hosts master_name db socket_timeout ssl_enabled ssl_params,
    _parse_hosts p = Ok hosts
    /\ _parse_master_and_db p = Ok (master_name, db)
    /\ _parse_socket_timeout q = Ok socket_timeout
    /\ _parse_ssl_enabled (Urllib.scheme p) q = Ok ssl_enabled
    /\ _parse_ssl_params q ssl_enabled = Ok ssl_params
    /\ sk = {| sk_hosts := hosts; sk_socket_timeout := socket_timeout;
               sk_ssl_params := ssl_params;
               sk_auth_params :=
                 _parse_auth_params (Urllib.username p) (Urllib.password p);
               sk_master_name := master_name |}
    /\ ck = {| ck_db := db; ck_socket_timeout := socket_timeout;
               ck_ssl_params := ssl_params;
               ck_auth_params :=
                 _parse_auth_params (Urllib.username p) (Urllib.password p) |}.
Proof.
  unfold _parse_sentinel_parameters. simpl.
  destruct (_parse_hosts p) as [hosts|]; [|done]. simpl.
  destruct (_parse_master_and_db p) as [[name db]|]; [|done]. simpl.
  destruct (_parse_socket_timeout _) as [t|]; [|done]. simpl.
  destruct (_parse_ssl_enabled _ _) as [b|]; [|done]. simpl.
  destruct (_parse_ssl_params _ b) as [m|] eqn:Hm; [|done]. simpl.
  intros [= <- <-]. exists hosts, name, db, t, b, m. by rewrite Hm.
Qed.

(** * The claims *)

(** C1.  Resolving
    [rediss+sentinel://u:p@h1:1,h2/grp/3?socket_timeout=2.5&ssl_cert_reqs=required]
    gives the hosts [("h1", 1)] and [("h2", 26379)] in this order, the group
    name [grp], the database index 3, the socket timeout 2.5, security on
    with the certificate requirement [CERT_REQUIRED], and the credentials
    [u] and [p]. *)
Theorem resolve_secure_sentinel_url :
  (p ← Urllib.urlparse
         "rediss+sentinel://u:p@h1:1,h2/grp/3?socket_timeout=2.5&ssl_cert_reqs=required";
   _parse_sentinel_parameters p)
  = Ok ({| sk_hosts := [("h1", 1); ("h2", 26379)];
           sk_socket_timeout := Some (Py.PyFinite false (5 # 2));
           sk_ssl_params :=
             {[ "ssl" := VBool true; "ssl_cert_reqs" := VVerifyMode CERT_REQUIRED ]};
           sk_auth_params := {[ "username" := VStr "u"; "password" := VStr "p" ]};
           sk_master_name := "grp" |},
        {| ck_db := 3;
           ck_socket_timeout := Some (Py.PyFinite false (5 # 2));
           ck_ssl_params :=
             {[ "ssl" := VBool true; "ssl_cert_reqs" := VVerifyMode CERT_REQUIRED ]};
           ck_auth_params := {[ "username" := VStr "u"; "password" := VStr "p" ]} |}).
Proof. vm_compute. reflexivity. Qed.

(** C2.  For every sentinel URL the host list of [_parse_hosts] is the one
    the specification describes: the authority without the credentials up
    to the first [@], split on [,], each token giving its host with the
    port read by [int] after the first [:] or with 26379 when the token has
    no [:]; the hosts come in the order of the tokens.  When a port is not
    an integer there is no host list, on either side. *)
Theorem parse_hosts_follows_tokens (url : string) (p : Urllib.ParseResult) :
  Urllib.urlparse url = Ok p ->
  is_sentinel_scheme (Urllib.scheme p) = true ->
  _parse_hosts p = Spec.coordinator_hosts (Urllib.netloc p)
  /\ match _parse_hosts p with
     | Ok hosts =>
         Forall2 (fun token hp => Spec.host_port token = Ok hp)
           (Py.split "," (Spec.strip_credentials (Urllib.netloc p))) hosts
     | Raise e => e = ValueError /\ Spec.ports_ok p = false
     end.
Proof.
  intros _ _. split; [apply parse_hosts_spec|].
  rewrite parse_hosts_spec. unfold Spec.coordinator_hosts, Spec.ports_ok.
  pose proof (traverse_host_port_ok
    (Py.split "," (Spec.strip_credentials (Urllib.netloc p)))) as Hok.
  destruct (Spec.traverse _ _) as [hosts|e] eqn:Ht; [|done].
  by apply traverse_Forall2.
Qed.

Lemma parse_hosts_follows_tokens_witness :
  let url := "redis+sentinel://u:p@h1:1,h2/grp/3" in
  let p := {| Urllib.scheme := "redis+sentinel"; Urllib.netloc := "u:p@h1:1,h2";
              Urllib.path := "/grp/3"; Urllib.query := ""; Urllib.fragment := "" |} in
  Urllib.urlparse url = Ok p
  /\ is_sentinel_scheme (Urllib.scheme p) = true
  /\ _parse_hosts p = Spec.coordinator_hosts (Urllib.netloc p)
  /\ match _parse_hosts p with
     | Ok hosts =>
         Forall2 (fun token hp => Spec.host_port token = Ok hp)
           (Py.split "," (Spec.strip_credentials (Urllib.netloc p))) hosts
     | Raise e => e = ValueError /\ Spec.ports_ok p = false
     end.
Proof.
  intros url p.
  split; [reflexivity|]. split; [reflexivity|].
  apply (parse_hosts_follows_tokens url p); reflexivity.
Defined.

(** C3.  For every URL whose scheme is neither [redis+sentinel] nor
    [rediss+sentinel], [init_app] takes the direct path:
    [_init_standard_client] runs on the configured URL itself, and the only
    call that reaches the provider is [from_url] with that very string
    (no call at all when a keyword is given twice, which is a [TypeError]
    of the call expression). *)
Theorem direct_scheme_passes_url_unchanged (G : Globals) (kw : kwargs)
    (st : State) (url : string) (p : Urllib.ParseResult) :
  configured_url (self st) (app st) = url ->
  Urllib.urlparse url = Ok p ->
  is_sentinel_scheme (Urllib.scheme p) = false ->
  let st1 := {| self := update_provider_kwargs kw (self st);
                app := app st; calls := calls st |} in
  (init_app G kw st).1 = (_init_standard_client url st1).1
  /\ calls (init_app G kw st).2 = calls (_init_standard_client url st1).2
  /\ calls (init_app G kw st).2
     = calls st
       ++ match keywords [ {[ "decode_responses" := VBool (decode_responses (self st)) ]};
                           kw ∪ provider_kwargs (self st) ] with
          | Ok k => [CallFromUrl url k]
          | Raise _ => []
          end.
Proof.
  intros Hurl Hp Hs st1. rewrite init_app_unfold. simpl. rewrite Hurl, Hp, Hs.
  fold st1. rewrite init_standard_client_unfold. simpl.
  destruct (keywords _) as [k|e]; simpl.
  - destruct (from_url _ _ _); simpl; done.
  - by rewrite app_nil_r.
Qed.

Lemma direct_scheme_passes_url_unchanged_witness :
  let url := "rediss://localhost:6379/0" in
  let st := Fixture.state url in
  let st1 := {| self := update_provider_kwargs ∅ (self st);
                app := app st; calls := calls st |} in
  configured_url (self st) (app st) = url
  /\ is_ok (Urllib.urlparse url) = true
  /\ (init_app Fixture.with_sentinel ∅ st).1 = (_init_standard_client url st1).1
  /\ calls (init_app Fixture.with_sentinel ∅ st).2
     = calls (_init_standard_client url st1).2
  /\ calls (init_app Fixture.with_sentinel ∅ st).2
     = [CallFromUrl url {[ "decode_responses" := VBool true ]}].
Proof.
  cbv zeta. split; [reflexivity|]. split; [reflexivity|].
  pose proof (direct_scheme_passes_url_unchanged Fixture.with_sentinel ∅
    (Fixture.state "rediss://localhost:6379/0") "rediss://localhost:6379/0"
    {| Urllib.scheme := "rediss"; Urllib.netloc := "localhost:6379";
       Urllib.path := "/0"; Urllib.query := ""; Urllib.fragment := "" |}
    eq_refl eq_refl eq_refl) as (H1 & H2 & H3).
  split; [exact H1|]. split; [exact H2|].
  rewrite H3. vm_compute. reflexivity.
Defined.

(** The guard of [init_app] taken alone, on an instance that exists
    although [Sentinel] is [None]: [ImportError] before any call to the
    provider, the stored client and the application as they were.  (No
    constructor of the class gives such an instance, as shown next.) *)
Theorem sentinel_missing_raises_import_error (G : Globals) (kw : kwargs)
    (st : State) (p : Urllib.ParseResult) :
  Sentinel G = None ->
  Urllib.urlparse (configured_url (self st) (app st)) = Ok p ->
  is_sentinel_scheme (Urllib.scheme p) = true ->
  (init_app G kw st).1 = Raise ImportError
  /\ calls (init_app G kw st).2 = calls st
  /\ _redis_client (self (init_app G kw st).2) = _redis_client (self st)
  /\ app (init_app G kw st).2 = app st.
Proof.
  intros HS Hp Hs. rewrite init_app_unfold. simpl. by rewrite Hp, Hs, HS.
Qed.

Lemma sentinel_missing_raises_import_error_witness :
  let st := Fixture.state "redis+sentinel://localhost:26379/mymaster/0" in
  Sentinel Fixture.without_sentinel = None
  /\ is_ok (Urllib.urlparse (configured_url (self st) (app st))) = true
  /\ (init_app Fixture.without_sentinel ∅ st).1 = Raise ImportError
  /\ calls (init_app Fixture.without_sentinel ∅ st).2 = calls st
  /\ _redis_client (self (init_app Fixture.without_sentinel ∅ st).2)
     = _redis_client (self st)
  /\ app (init_app Fixture.without_sentinel ∅ st).2 = app st.
Proof.
  cbv zeta. split; [reflexivity|]. split; [reflexivity|].
  exact (sentinel_missing_raises_import_error Fixture.without_sentinel ∅
    (Fixture.state "redis+sentinel://localhost:26379/mymaster/0")
    {| Urllib.scheme := "redis+sentinel"; Urllib.netloc := "localhost:26379";
       Urllib.path := "/mymaster/0"; Urllib.query := ""; Urllib.fragment := "" |}
    eq_refl eq_refl eq_refl).
Defined.

(** C9.  The claim holds of the guard in [init_app], and the code does
    not deliver it: [Sentinel] is [None] only when the guarded import
    failed, which leaves [redis] at [None] as well, and then both
    constructors raise [AttributeError] when [__init__] reads the default
    client class, whatever the URL, so on a sentinel URL too; nothing is
    called and the application is not touched.  No instance exists on
    which [init_app] could raise its [ImportError]; and when the import
    succeeded, [Sentinel] is not [None]. *)
Theorem missing_sentinel_ends_in_attribute_error (new_oid : nat)
    (provider : Provider) (a : option App) (strict : bool) (prefix : string)
    (decode : bool) (kw : kwargs) (cs : list call) :
  let redis := (Class.module_level None).1 in
  let G := (Class.module_level None).2 in
  Sentinel G = None
  /\ Class.__init__ redis G new_oid a strict prefix decode kw cs
     = {| Class.instance := inl Class.AttributeError; Class.app_after := a;
          Class.calls_after := cs |}
  /\ Class.from_custom_provider redis G new_oid (Some provider) a strict prefix
       decode kw cs
     = {| Class.instance := inl Class.AttributeError; Class.app_after := a;
          Class.calls_after := cs |}
  /\ forall r s, Sentinel (Class.module_level (Some (r, s))).2 = Some s.
Proof. by repeat split. Qed.

(** The same at the application of the tests: [FlaskRedis(app)] on a
    sentinel URL when redis-py is missing. *)
Example constructor_on_sentinel_url_without_redis :
  Class.instance
    (Class.__init__ (Class.module_level None).1 (Class.module_level None).2 1
       (Some (Fixture.application "redis+sentinel://localhost:26379/mymaster/0"))
       true "REDIS" true ∅ [])
  = inl Class.AttributeError.
Proof. reflexivity. Qed.

(** C8, as the specification states it, fails on the socket timeout:
    the query [socket_timeout=2&socket_timeout=soon] holds a value that
    [float] rejects, and the URL resolves with the timeout 2 and the
    client is built, because only the first value is read. *)
Lemma later_socket_timeout_value_is_not_read :
  Urllib.parse_qs "socket_timeout=2&socket_timeout=soon" !! "socket_timeout"
  = Some ["2"; "soon"]
  /\ Py.float "soon" = Raise ValueError
  /\ (p ← Urllib.urlparse
             "redis+sentinel://h/grp/0?socket_timeout=2&socket_timeout=soon";
      '(sk, _) ← _parse_sentinel_parameters p; Ok (sk_socket_timeout sk))
     = Ok (Some (Py.PyFinite false (2 # 1)))
  /\ (init_app Fixture.with_sentinel ∅
        (Fixture.state
           "redis+sentinel://h/grp/0?socket_timeout=2&socket_timeout=soon")).1
     = Ok tt
  /\ _redis_client
       (self (init_app Fixture.with_sentinel ∅
                (Fixture.state
                   "redis+sentinel://h/grp/0?socket_timeout=2&socket_timeout=soon")).2)
     = Some 3%nat.
Proof. repeat split; vm_compute; reflexivity. Qed.

(** C8, amended.  For every sentinel URL in which [int] rejects the text
    after the first [:] of a host token or the text after the first [/] of
    the path without its leading slashes, or [float] rejects the first
    value of [socket_timeout] that is not blank, [_parse_sentinel_parameters]
    raises [ValueError]; [init_app] does not catch it (it raises it, or the
    [ImportError] of its guard when [Sentinel] is [None], which is checked
    first), calls the provider not once, and leaves the stored client and
    the application as they were. *)
Theorem malformed_field_raises_value_error (G : Globals) (kw : kwargs)
    (st : State) (p : Urllib.ParseResult) :
  Urllib.urlparse (configured_url (self st) (app st)) = Ok p ->
  is_sentinel_scheme (Urllib.scheme p) = true ->
  Spec.ports_ok p = false \/ Spec.db_ok p = false \/ Spec.timeout_ok p = false ->
  _parse_sentinel_parameters p = Raise ValueError
  /\ (init_app G kw st).1
     = Raise (match Sentinel G with
              | Some _ => ValueError
              | None => ImportError
              end)
  /\ calls (init_app G kw st).2 = calls st
  /\ _redis_client (self (init_app G kw st).2) = _redis_client (self st)
  /\ app (init_app G kw st).2 = app st.
Proof.
  intros Hp Hs Hbad.
  assert (_parse_sentinel_parameters p = Raise ValueError) as Hraise.
  { pose proof (parse_sentinel_parameters_ok p) as H.
    destruct (_parse_sentinel_parameters p) as [r|e].
    - unfold Spec.fields_ok in H.
      apply andb_true_iff in H as [[H1 H2]%andb_true_iff H3].
      destruct Hbad as [Hb|[Hb|Hb]]; congruence.
    - by destruct H as [-> _]. }
  split; [exact Hraise|].
  rewrite init_app_unfold. simpl. rewrite Hp, Hs.
  destruct (Sentinel G) as [cls|]; [|done].
  by rewrite (init_sentinel_client_raise _ _ _ _ Hraise).
Qed.

Lemma malformed_field_raises_value_error_witness :
  let st := Fixture.state "redis+sentinel://h1:1,h2:abc/grp/3" in
  let p := {| Urllib.scheme := "redis+sentinel"; Urllib.netloc := "h1:1,h2:abc";
              Urllib.path := "/grp/3"; Urllib.query := ""; Urllib.fragment := "" |} in
  Urllib.urlparse (configured_url (self st) (app st)) = Ok p
  /\ Spec.ports_ok p = false
  /\ _parse_sentinel_parameters p = Raise ValueError
  /\ (init_app Fixture.with_sentinel ∅ st).1 = Raise ValueError
  /\ calls (init_app Fixture.with_sentinel ∅ st).2 = calls st
  /\ _redis_client (self (init_app Fixture.with_sentinel ∅ st).2)
     = _redis_client (self st)
  /\ app (init_app Fixture.with_sentinel ∅ st).2 = app st.
Proof.
  cbv zeta. split; [reflexivity|]. split; [reflexivity|].
  exact (malformed_field_raises_value_error Fixture.with_sentinel ∅
    (Fixture.state "redis+sentinel://h1:1,h2:abc/grp/3")
    {| Urllib.scheme := "redis+sentinel"; Urllib.netloc := "h1:1,h2:abc";
       Urllib.path := "/grp/3"; Urllib.query := ""; Urllib.fragment := "" |}
    eq_refl eq_refl (or_introl eq_refl)).
Defined.

(** The same on a database index and on a socket timeout. *)
Example malformed_db_index :
  (p ← Urllib.urlparse "redis+sentinel://h/grp/x"; _parse_sentinel_parameters p)
  = Raise ValueError.
Proof. vm_compute. reflexivity. Qed.

Example malformed_socket_timeout :
  (p ← Urllib.urlparse "redis+sentinel://h/grp/0?socket_timeout=soon";
   _parse_sentinel_parameters p)
  = Raise ValueError.
Proof. vm_compute. reflexivity. Qed.

Example blank_socket_timeout_is_absent :
  (p ← Urllib.urlparse "redis+sentinel://h/grp/0?socket_timeout=";
   '(sk, _) ← _parse_sentinel_parameters p; Ok (sk_socket_timeout sk))
  = Ok None.
Proof. vm_compute. reflexivity. Qed.

(** C6, as the specification states it, fails:
    [redis+sentinel://h:abc/m/0] is accepted by [urlparse], and resolving
    it raises [ValueError]. *)
Lemma valid_url_resolution_raises :
  Urllib.urlparse "redis+sentinel://h:abc/m/0"
  = Ok {| Urllib.scheme := "redis+sentinel"; Urllib.netloc := "h:abc";
          Urllib.path := "/m/0"; Urllib.query := ""; Urllib.fragment := "" |}
  /\ (p ← Urllib.urlparse "redis+sentinel://h:abc/m/0";
      _parse_sentinel_parameters p) = Raise ValueError
  /\ (init_app Fixture.with_sentinel ∅
        (Fixture.state "redis+sentinel://h:abc/m/0")).1 = Raise ValueError.
Proof. repeat split; vm_compute; reflexivity. Qed.

(** A bracketed address has its first [:] inside the brackets: the text
    that goes to [int] is not the port, and the URL does not resolve. *)
Example bracketed_host_raises :
  (p ← Urllib.urlparse "redis+sentinel://[::1]:26379/mymaster/0";
   _parse_sentinel_parameters p)
  = Raise ValueError.
Proof. vm_compute. reflexivity. Qed.

(** C6, amended.  Resolution is a function of the URL alone (it reads no
    state and calls no provider).  On a URL that [urlparse] accepts and
    whose scheme is a sentinel one, it returns exactly when [int] accepts
    the text after the first [:] of every host token (the pieces between
    commas of the authority after its first [@]) that has a [:], [int]
    accepts the text after the first [/] of the path without its leading
    slashes when there is one, and [float] accepts the first value of
    [socket_timeout] that is not blank when there is one; otherwise it
    raises, and what it raises is a [ValueError].  For any other scheme
    nothing is raised between the parsing and the direct path, which
    receives the URL. *)
Theorem resolution_raises_exactly_when_a_text_is_rejected (url : string)
    (p : Urllib.ParseResult) :
  Urllib.urlparse url = Ok p ->
  if is_sentinel_scheme (Urllib.scheme p) then
    match _parse_sentinel_parameters p with
    | Ok _ =>
        Spec.ports_ok p = true /\ Spec.db_ok p = true /\ Spec.timeout_ok p = true
    | Raise e =>
        e = ValueError
        /\ (Spec.ports_ok p = false \/ Spec.db_ok p = false
            \/ Spec.timeout_ok p = false)
    end
  else
    forall (G : Globals) (kw : kwargs) (st : State),
      configured_url (self st) (app st) = url ->
      init_app G kw st
      = match _init_standard_client url
                {| self := update_provider_kwargs kw (self st);
                   app := app st; calls := calls st |} with
        | (Ok _, st2) =>
            (Ok tt, {| self := self st2;
                       app := register (Py.lower (config_prefix (self st)))
                                (oid (self st)) (app st2);
                       calls := calls st2 |})
        | (Raise e, st2) => (Raise e, st2)
        end.
Proof.
  intros Hp. destruct (is_sentinel_scheme (Urllib.scheme p)) eqn:Hs.
  - pose proof (parse_sentinel_parameters_ok p) as H. unfold Spec.fields_ok in H.
    destruct (_parse_sentinel_parameters p) as [r|e].
    + by apply andb_true_iff in H as [[H1 H2]%andb_true_iff H3].
    + destruct H as [-> H]. split; [done|].
      destruct (Spec.ports_ok p); [|by left].
      destruct (Spec.db_ok p); [|by right; left].
      by right; right.
  - intros G kw st Hurl. rewrite init_app_unfold. simpl.
    by rewrite Hurl, Hp, Hs.
Qed.

Lemma resolution_raises_exactly_when_a_text_is_rejected_witness :
  let p := {| Urllib.scheme := "redis+sentinel"; Urllib.netloc := "localhost:26379";
              Urllib.path := "/mymaster/0"; Urllib.query := "";
              Urllib.fragment := "" |} in
  Urllib.urlparse "redis+sentinel://localhost:26379/mymaster/0" = Ok p
  /\ is_ok (_parse_sentinel_parameters p) = true
  /\ Spec.ports_ok p = true /\ Spec.db_ok p = true /\ Spec.timeout_ok p = true.
Proof.
  cbv zeta. split; [reflexivity|]. split; [vm_compute; reflexivity|].
  exact (resolution_raises_exactly_when_a_text_is_rejected
    "redis+sentinel://localhost:26379/mymaster/0"
    {| Urllib.scheme := "redis+sentinel"; Urllib.netloc := "localhost:26379";
       Urllib.path := "/mymaster/0"; Urllib.query := "";
       Urllib.fragment := "" |} eq_refl).
Defined.

(** C5, as the specification states it, fails: the path of
    [redis+sentinel://localhost:26379/mymaster] has no [/] left after the
    leading one is stripped, and the group name is [mymaster], not the
    empty string. *)
Lemma one_segment_path_names_the_group :
  Py.contains "/" (Py.lstrip "/" "/mymaster") = false
  /\ (p ← Urllib.urlparse "redis+sentinel://localhost:26379/mymaster";
      '(sk, ck) ← _parse_sentinel_parameters p;
      Ok (Urllib.path p, sk_master_name sk, ck_db ck))
     = Ok ("/mymaster", "mymaster", 0).
Proof. split; vm_compute; reflexivity. Qed.

(** C5, amended.  For every sentinel URL whose path has no [/] after the
    leading ones are stripped, the group name is that stripped path (the
    empty string when nothing is left) and the database index is 0. *)
Theorem one_segment_path_is_group_name (url : string) (p : Urllib.ParseResult) :
  Urllib.urlparse url = Ok p ->
  is_sentinel_scheme (Urllib.scheme p) = true ->
  Py.contains "/" (Py.lstrip "/" (Urllib.path p)) = false ->
  _parse_master_and_db p = Ok (Py.lstrip "/" (Urllib.path p), 0)
  /\ forall sk ck, _parse_sentinel_parameters p = Ok (sk, ck) ->
       sk_master_name sk = Py.lstrip "/" (Urllib.path p) /\ ck_db ck = 0.
Proof.
  intros _ _ Hc.
  assert (_parse_master_and_db p = Ok (Py.lstrip "/" (Urllib.path p), 0)) as Hm.
  { unfold _parse_master_and_db. by rewrite Hc. }
  split; [exact Hm|]. intros sk ck Hr.
  apply parse_sentinel_parameters_inv in Hr
    as (hosts & name & db & t & b & m & _ & Hd & _ & _ & _ & -> & ->).
  rewrite Hm in Hd. by injection Hd as <- <-.
Qed.

Lemma one_segment_path_is_group_name_witness :
  let p := {| Urllib.scheme := "redis+sentinel"; Urllib.netloc := "localhost:26379";
              Urllib.path := "/mymaster"; Urllib.query := "";
              Urllib.fragment := "" |} in
  Urllib.urlparse "redis+sentinel://localhost:26379/mymaster" = Ok p
  /\ is_sentinel_scheme (Urllib.scheme p) = true
  /\ Py.contains "/" (Py.lstrip "/" (Urllib.path p)) = false
  /\ _parse_master_and_db p = Ok (Py.lstrip "/" (Urllib.path p), 0)
  /\ forall sk ck, _parse_sentinel_parameters p = Ok (sk, ck) ->
       sk_master_name sk = Py.lstrip "/" (Urllib.path p) /\ ck_db ck = 0.
Proof.
  cbv zeta. split; [reflexivity|]. split; [reflexivity|]. split; [reflexivity|].
  exact (one_segment_path_is_group_name
    "redis+sentinel://localhost:26379/mymaster"
    {| Urllib.scheme := "redis+sentinel"; Urllib.netloc := "localhost:26379";
       Urllib.path := "/mymaster"; Urllib.query := "";
       Urllib.fragment := "" |} eq_refl eq_refl eq_refl).
Defined.

(** C7.  For every sentinel URL that resolves, the security parameters
    have a field only when security is enabled: with security off the
    dictionary is empty, and with security on it carries [ssl=True]; the
    sentinel and the client receive the same dictionary. *)
Theorem security_fields_only_when_enabled (url : string) (p : Urllib.ParseResult)
    (sk : sentinel_kwargs_t) (ck : client_kwargs_t) :
  Urllib.urlparse url = Ok p ->
  is_sentinel_scheme (Urllib.scheme p) = true ->
  _parse_sentinel_parameters p = Ok (sk, ck) ->
  exists ssl_enabled,
    _parse_ssl_enabled (Urllib.scheme p) (Urllib.parse_qs (Urllib.query p))
    = Ok ssl_enabled
    /\ ck_ssl_params ck = sk_ssl_params sk
    /\ (ssl_enabled = false -> sk_ssl_params sk = ∅)
    /\ (ssl_enabled = true -> sk_ssl_params sk !! "ssl" = Some (VBool true))
    /\ (forall key, is_Some (sk_ssl_params sk !! key) -> ssl_enabled = true).
Proof.
  intros _ _ Hr.
  apply parse_sentinel_parameters_inv in Hr
    as (hosts & name & db & t & b & m & _ & _ & _ & Hb & Hm & -> & ->).
  exists b. simpl. split; [exact Hb|]. split; [done|].
  destruct (parse_ssl_params_total (Urllib.query p) b) as (m' & Hm' & Hoff & Hon).
  rewrite Hm in Hm'. injection Hm' as <-.
  split; [exact Hoff|]. split; [exact Hon|].
  intros key [v Hv]. destruct b; [done|].
  rewrite (Hoff eq_refl) in Hv. by rewrite lookup_empty in Hv.
Qed.

Lemma security_fields_only_when_enabled_witness :
  let p := {| Urllib.scheme := "redis+sentinel"; Urllib.netloc := "h";
              Urllib.path := "/grp/0";
              Urllib.query := "ssl_keyfile=/k.pem&ssl_cert_reqs=required";
              Urllib.fragment := "" |} in
  Urllib.urlparse "redis+sentinel://h/grp/0?ssl_keyfile=/k.pem&ssl_cert_reqs=required"
  = Ok p
  /\ is_sentinel_scheme (Urllib.scheme p) = true
  /\ exists sk ck ssl_enabled,
       _parse_sentinel_parameters p = Ok (sk, ck)
       /\ _parse_ssl_enabled (Urllib.scheme p) (Urllib.parse_qs (Urllib.query p))
          = Ok ssl_enabled
       /\ ck_ssl_params ck = sk_ssl_params sk
       /\ (ssl_enabled = false -> sk_ssl_params sk = ∅)
       /\ (ssl_enabled = true -> sk_ssl_params sk !! "ssl" = Some (VBool true))
       /\ (forall key, is_Some (sk_ssl_params sk !! key) -> ssl_enabled = true).
Proof.
  cbv zeta. split; [reflexivity|]. split; [reflexivity|].
  eexists _, _.
  edestruct (security_fields_only_when_enabled
    "redis+sentinel://h/grp/0?ssl_keyfile=/k.pem&ssl_cert_reqs=required"
    {| Urllib.scheme := "redis+sentinel"; Urllib.netloc := "h";
       Urllib.path := "/grp/0";
       Urllib.query := "ssl_keyfile=/k.pem&ssl_cert_reqs=required";
       Urllib.fragment := "" |}) as (b & H); [reflexivity | reflexivity | |].
  - vm_compute. reflexivity.
  - exists b. split; [vm_compute; reflexivity|]. exact H.
Defined.

(** ** The credentials *)

Lemma parse_auth_params_values (username password : option string)
    (key : string) (v : pyval) :
  _parse_auth_params username password !! key = Some v ->
  exists s, v = VStr s /\ s <> "".
Proof.
  unfold _parse_auth_params, set_if_truthy.
  destruct username as [[|c u]|], password as [[|d w]|]; simpl;
    intros H; repeat (apply lookup_insert_Some in H as [[_ <-]|[_ H]]);
    try (by rewrite lookup_empty in H); by eexists.
Qed.

Lemma parse_auth_params_absent (username password : option string) :
  _parse_auth_params username password
  = _parse_auth_params (Spec.absent_if_empty username)
      (Spec.absent_if_empty password).
Proof. by destruct username as [[|c u]|], password as [[|d w]|]. Qed.

(** C10.  For every sentinel URL that resolves, no value of the
    credentials is the empty string: a user name or a password that the
    URL gives as empty is left out, and the dictionary is the one of the
    URL without it.  The sentinel and the client receive the same
    dictionary. *)
Theorem credentials_hold_no_empty_string (url : string) (p : Urllib.ParseResult)
    (sk : sentinel_kwargs_t) (ck : client_kwargs_t) :
  Urllib.urlparse url = Ok p ->
  is_sentinel_scheme (Urllib.scheme p) = true ->
  _parse_sentinel_parameters p = Ok (sk, ck) ->
  (forall key v, sk_auth_params sk !! key = Some v -> exists s, v = VStr s /\ s <> "")
  /\ ck_auth_params ck = sk_auth_params sk
  /\ sk_auth_params sk
     = _parse_auth_params (Spec.absent_if_empty (Urllib.username p))
         (Spec.absent_if_empty (Urllib.password p)).
Proof.
  intros _ _ Hr.
  apply parse_sentinel_parameters_inv in Hr
    as (hosts & name & db & t & b & m & _ & _ & _ & _ & _ & -> & ->).
  simpl. split; [|split; [done|apply parse_auth_params_absent]].
  intros key v. apply parse_auth_params_values.
Qed.

Lemma credentials_hold_no_empty_string_witness :
  let p := {| Urllib.scheme := "redis+sentinel"; Urllib.netloc := "u:@host";
              Urllib.path := "/grp/0"; Urllib.query := ""; Urllib.fragment := "" |} in
  Urllib.urlparse "redis+sentinel://u:@host/grp/0" = Ok p
  /\ is_sentinel_scheme (Urllib.scheme p) = true
  /\ Urllib.username p = Some "u"
  /\ Urllib.password p = Some ""
  /\ exists sk ck,
       _parse_sentinel_parameters p = Ok (sk, ck)
       /\ sk_auth_params sk = {[ "username" := VStr "u" ]}
       /\ (forall key v, sk_auth_params sk !! key = Some v ->
             exists s, v = VStr s /\ s <> "")
       /\ ck_auth_params ck = sk_auth_params sk
       /\ sk_auth_params sk
          = _parse_auth_params (Spec.absent_if_empty (Urllib.username p))
              (Spec.absent_if_empty (Urllib.password p)).
Proof.
  cbv zeta. split; [reflexivity|]. split; [reflexivity|].
  split; [reflexivity|]. split; [reflexivity|].
  eexists _, _. split; [vm_compute; reflexivity|]. split; [vm_compute; reflexivity|].
  apply (credentials_hold_no_empty_string "redis+sentinel://u:@host/grp/0"
    {| Urllib.scheme := "redis+sentinel"; Urllib.netloc := "u:@host";
       Urllib.path := "/grp/0"; Urllib.query := ""; Urllib.fragment := "" |});
    [reflexivity | reflexivity | vm_compute; reflexivity].
Defined.

(** ** Security by the query and by the scheme *)

Lemma verify_mode_unknown (name : string) :
  name ∉ ["required"; "optional"; "none"] ->
  ({[ "required" := CERT_REQUIRED; "optional" := CERT_OPTIONAL;
      "none" := CERT_NONE ]} : gmap string VerifyMode) !! name = None.
Proof.
  intros Hn. rewrite !lookup_insert_ne, lookup_singleton_ne; [done|..];
    intros <-; apply Hn; set_solver.
Qed.

(** C4, as the specification states it, fails: with a certificate field
    in the query, [ssl=true] on [redis+sentinel] gives that field besides
    [ssl=True], and the [rediss+sentinel] URL without a query gives
    [ssl=True] alone. *)
Lemma ssl_true_keeps_certificate_fields :
  (p ← Urllib.urlparse "redis+sentinel://h/m/0?ssl=true&ssl_cert_reqs=required";
   '(sk, _) ← _parse_sentinel_parameters p;
   Ok (Urllib.scheme p,
       Spec.first_value "ssl" (Urllib.parse_qsl (Urllib.query p)),
       sk_ssl_params sk))
  = Ok ("redis+sentinel", Some "true",
        {[ "ssl" := VBool true; "ssl_cert_reqs" := VVerifyMode CERT_REQUIRED ]})
  /\ (p ← Urllib.urlparse "redis+sentinel://h/m/0?ssl=true&ssl_cert_reqs=required";
      '(sk, _) ← _parse_sentinel_parameters (Spec.secure_without_query p);
      Ok (sk_ssl_params sk))
     = Ok {[ "ssl" := VBool true ]}
  /\ (p ← Urllib.urlparse "redis+sentinel://h/m/0?ssl=true&ssl_cert_reqs=required";
      Ok (Spec.secure_without_query p))
     = Urllib.urlparse "rediss+sentinel://h/m/0"
  /\ ({[ "ssl" := VBool true; "ssl_cert_reqs" := VVerifyMode CERT_REQUIRED ]} : kwargs)
     <> {[ "ssl" := VBool true ]}.
Proof.
  repeat split; try (vm_compute; reflexivity).
  intros H. apply (f_equal (fun m : kwargs => m !! "ssl_cert_reqs")) in H.
  vm_compute in H. discriminate H.
Qed.

Lemma parse_ssl_params_bare (qs : string) :
  (forall v, Spec.first_value "ssl_cert_reqs" (Urllib.parse_qsl qs) = Some v ->
     Py.lower v ∉ ["required"; "optional"; "none"]) ->
  Spec.first_value "ssl_keyfile" (Urllib.parse_qsl qs) = None ->
  Spec.first_value "ssl_certfile" (Urllib.parse_qsl qs) = None ->
  Spec.first_value "ssl_ca_certs" (Urllib.parse_qsl qs) = None ->
  _parse_ssl_params (Urllib.parse_qs qs) true = Ok {[ "ssl" := VBool true ]}.
Proof.
  intros Hreq Hkey Hcert Hca.
  unfold _parse_ssl_params, _parse_ssl_cert_reqs.
  rewrite !get_first_parse_qs, Hkey, Hcert, Hca. simpl.
  destruct (Spec.first_value "ssl_cert_reqs" _) as [v|] eqn:Hv; simpl; [|done].
  destruct (Py.truthy v); simpl; [|done].
  by rewrite (verify_mode_unknown _ (Hreq v eq_refl)).
Qed.

(** C4, amended.  For every [redis+sentinel] URL whose first [ssl] value
    is [true] in any case of letters, and whose query gives no
    [ssl_keyfile], [ssl_certfile] or [ssl_ca_certs] and no [ssl_cert_reqs]
    that names a verify mode, the security parameters are those of the
    same URL with the [rediss+sentinel] scheme and no query: [ssl=True] and
    nothing else. *)
Theorem ssl_true_alone_matches_secure_scheme (url : string)
    (p : Urllib.ParseResult) (sk : sentinel_kwargs_t) (ck : client_kwargs_t) :
  let pairs := Urllib.parse_qsl (Urllib.query p) in
  Urllib.urlparse url = Ok p ->
  Urllib.scheme p = "redis+sentinel" ->
  (exists v, Spec.first_value "ssl" pairs = Some v /\ Py.lower v = "true") ->
  (forall v, Spec.first_value "ssl_cert_reqs" pairs = Some v ->
     Py.lower v ∉ ["required"; "optional"; "none"]) ->
  Spec.first_value "ssl_keyfile" pairs = None ->
  Spec.first_value "ssl_certfile" pairs = None ->
  Spec.first_value "ssl_ca_certs" pairs = None ->
  _parse_sentinel_parameters p = Ok (sk, ck) ->
  exists sk' ck',
    _parse_sentinel_parameters (Spec.secure_without_query p) = Ok (sk', ck')
    /\ sk_ssl_params sk = sk_ssl_params sk'
    /\ ck_ssl_params ck = ck_ssl_params ck'
    /\ sk_ssl_params sk = {[ "ssl" := VBool true ]}.
Proof.
  intros pairs _ Hscheme (v & Hv & Htrue) Hreq Hkey Hcert Hca Hr.
  apply parse_sentinel_parameters_inv in Hr
    as (hosts & name & db & t & b & m & Hh & Hd & _ & Hb & Hm & -> & ->).
  rewrite parse_ssl_enabled_spec in Hb. fold pairs in Hb.
  rewrite Hscheme, Hv in Hb. simpl in Hb. rewrite Htrue in Hb.
  injection Hb as <-.
  rewrite (parse_ssl_params_bare _ Hreq Hkey Hcert Hca) in Hm.
  injection Hm as <-.
  unfold _parse_sentinel_parameters, Spec.secure_without_query.
  change (_parse_hosts {| Urllib.scheme := _; Urllib.netloc := Urllib.netloc p;
            Urllib.path := _; Urllib.query := _; Urllib.fragment := _ |})
    with (_parse_hosts p).
  change (_parse_master_and_db {| Urllib.scheme := _; Urllib.netloc := _;
            Urllib.path := Urllib.path p; Urllib.query := _;
            Urllib.fragment := _ |})
    with (_parse_master_and_db p).
  rewrite Hh, Hd. simpl. by eexists _, _.
Qed.

Lemma ssl_true_alone_matches_secure_scheme_witness :
  let p := {| Urllib.scheme := "redis+sentinel"; Urllib.netloc := "h";
              Urllib.path := "/m/0"; Urllib.query := "ssl=True";
              Urllib.fragment := "" |} in
  Urllib.urlparse "redis+sentinel://h/m/0?ssl=True" = Ok p
  /\ Spec.first_value "ssl" (Urllib.parse_qsl (Urllib.query p)) = Some "True"
  /\ exists sk ck sk' ck',
       _parse_sentinel_parameters p = Ok (sk, ck)
       /\ _parse_sentinel_parameters (Spec.secure_without_query p) = Ok (sk', ck')
       /\ sk_ssl_params sk = sk_ssl_params sk'
       /\ ck_ssl_params ck = ck_ssl_params ck'
       /\ sk_ssl_params sk = {[ "ssl" := VBool true ]}.
Proof.
  cbv zeta. split; [reflexivity|]. split; [reflexivity|].
  eexists _, _.
  edestruct (ssl_true_alone_matches_secure_scheme
    "redis+sentinel://h/m/0?ssl=True"
    {| Urllib.scheme := "redis+sentinel"; Urllib.netloc := "h";
       Urllib.path := "/m/0"; Urllib.query := "ssl=True";
       Urllib.fragment := "" |}) as (sk' & ck' & H);
    [reflexivity | reflexivity | by exists "True" | by intros v [=]
    | reflexivity | reflexivity | reflexivity | | ].
  - vm_compute. reflexivity.
  - exists sk', ck'. split; [vm_compute; reflexivity|]. exact H.
Defined.

(** * Further properties of the code *)

(** ** Splitting and joining *)


Lemma append_assoc (a b c : string) : (a +:+ b) +:+ c = a +:+ (b +:+ c).
Proof.
  induction a as [|d a IH]; [done|].
  change (String d ((a +:+ b) +:+ c) = String d (a +:+ (b +:+ c))). by f_equal.
Qed.

Lemma contains_cons_same (c : ascii) (s : string) : Py.contains c (String c s) = true.
Proof. simpl. by rewrite Ascii.eqb_refl. Qed.

Lemma partition_append (c : ascii) (a b : string) :
  Py.contains c a = false ->
  Py.partition c (a +:+ String c b) = Some (a, b).
Proof.
  induction a as [|d a IH]; simpl.
  - by rewrite Ascii.eqb_refl.
  - destruct (Ascii.eqb c d); [done|]. intros H. by rewrite (IH H).
Qed.

Lemma rpartition_none (c : ascii) (s : string) :
  Py.contains c s = false -> Py.rpartition c s = None.
Proof.
  induction s as [|d s IH]; simpl; [done|].
  destruct (Ascii.eqb c d); [done|]. intros H. by rewrite (IH H).
Qed.

Lemma rpartition_append (c : ascii) (a b : string) :
  Py.contains c b = false ->
  Py.rpartition c (a +:+ String c b) = Some (a, b).
Proof.
  intros Hb. induction a as [|d a IH]; simpl.
  - by rewrite (rpartition_none _ _ Hb), Ascii.eqb_refl.
  - by rewrite IH.
Qed.





Lemma length_split (c : ascii) (s : string) :
  length (Py.split c s) = S (Text.count c s).
Proof.
  induction s as [|d s IH]; simpl; [done|].
  destruct (Ascii.eqb c d); simpl; [by rewrite IH|].
  destruct (Py.split c s); simpl in *; done.
Qed.

(** ** More on the coordinator hosts *)

(** X1.  When [_parse_hosts] returns, it returns one host more than the
    host part has commas: never the empty list, and an empty piece between
    two commas counts as a host (with the empty name). *)
Theorem parse_hosts_counts_commas (p : Urllib.ParseResult)
    (hosts : list (string * Z)) :
  _parse_hosts p = Ok hosts ->
  length hosts = S (Text.count "," (Spec.strip_credentials (Urllib.netloc p))).
Proof.
  rewrite parse_hosts_spec. unfold Spec.coordinator_hosts. intros H.
  apply traverse_Forall2, Forall2_length in H.
  by rewrite <- H, length_split.
Qed.

Lemma parse_hosts_counts_commas_witness :
  let p := {| Urllib.scheme := "redis+sentinel"; Urllib.netloc := "u:p@h1:1,,h3";
              Urllib.path := ""; Urllib.query := ""; Urllib.fragment := "" |} in
  _parse_hosts p = Ok [("h1", 1); ("", 26379); ("h3", 26379)]
  /\ length [("h1", 1); ("", 26379); ("h3", 26379)]
     = S (Text.count "," (Spec.strip_credentials (Urllib.netloc p))).
Proof.
  cbv zeta. split; [reflexivity|].
  exact (parse_hosts_counts_commas
    {| Urllib.scheme := "redis+sentinel"; Urllib.netloc := "u:p@h1:1,,h3";
       Urllib.path := ""; Urllib.query := ""; Urllib.fragment := "" |}
    [("h1", 1); ("", 26379); ("h3", 26379)] eq_refl).
Defined.





(** X3.  The hosts are read after the first [@] of the authority and the
    credentials before its last [@].  With two [@] or more, the text
    between the first and the last is read twice: as the end of the user
    information and as the start of the host part. *)
Theorem text_between_at_signs_is_read_twice (p : Urllib.ParseResult)
    (a b c : string) :
  Py.contains "@" a = false ->
  Py.contains "@" c = false ->
  Urllib.netloc p = a +:+ String "@" (b +:+ String "@" c) ->
  _extract_credentials p
  = match Py.partition ":" (a +:+ String "@" b) with
    | Some (username, password) => (Some username, Some password)
    | None => (Some (a +:+ String "@" b), None)
    end
  /\ _parse_hosts p
     = Spec.traverse Spec.host_port (Py.split "," (b +:+ String "@" c)).
Proof.
  intros Ha Hc Hnet. split.
  - unfold _extract_credentials, Urllib.username, Urllib.password, Urllib._userinfo.
    rewrite Hnet.
    replace (a +:+ String "@" (b +:+ String "@" c))
      with ((a +:+ String "@" b) +:+ String "@" c).
    + rewrite (rpartition_append _ _ _ Hc).
      by destruct (Py.partition ":" _) as [[u pw]|].
    + apply append_assoc.
  - rewrite parse_hosts_spec. unfold Spec.coordinator_hosts, Spec.strip_credentials.
    by rewrite Hnet, (partition_append _ _ _ Ha).
Qed.

Lemma text_between_at_signs_is_read_twice_witness :
  let p := {| Urllib.scheme := "redis+sentinel"; Urllib.netloc := "u:p@ss@h:1";
              Urllib.path := ""; Urllib.query := ""; Urllib.fragment := "" |} in
  Urllib.netloc p = "u:p" +:+ String "@" ("ss" +:+ String "@" "h:1")
  /\ _extract_credentials p = (Some "u", Some "p@ss")
  /\ _parse_hosts p = Ok [("ss@h", 1)].
Proof.
  cbv zeta. split; [reflexivity|].
  exact (text_between_at_signs_is_read_twice
    {| Urllib.scheme := "redis+sentinel"; Urllib.netloc := "u:p@ss@h:1";
       Urllib.path := ""; Urllib.query := ""; Urllib.fragment := "" |}
    "u:p" "ss" "h:1" eq_refl eq_refl eq_refl).
Defined.

(** ** More on the group name and the database index *)

Lemma lstrip_slashes (k : nat) (s : string) :
  Py.lstrip "/" s = s -> Py.lstrip "/" (Text.slashes k +:+ s) = s.
Proof.
  intros Hs. induction k as [|k IH]; [done|].
  change (Text.slashes (S k) +:+ s) with (String "/" (Text.slashes k +:+ s)).
  cbn [Py.lstrip]. by rewrite Ascii.eqb_refl.
Qed.

Lemma lstrip_append_no_slash (a b : string) :
  a <> "" -> Py.contains "/" a = false -> Py.lstrip "/" (a +:+ b) = a +:+ b.
Proof.
  destruct a as [|c a]; [done|]. intros _.
  change (String c a +:+ b) with (String c (a +:+ b)).
  cbn [Py.contains Py.lstrip]. by destruct (Ascii.eqb "/" c).
Qed.

Lemma written_path_parses (p : Urllib.ParseResult) (k : nat) (name db : string) :
  name <> "" ->
  Py.contains "/" name = false ->
  Urllib.path p = Text.slashes k +:+ name +:+ String "/" db ->
  _parse_master_and_db p = (n ← Py.int db; Ok (name, n)).
Proof.
  intros Hne Hname Hpath. rewrite parse_master_and_db_spec, Hpath.
  rewrite lstrip_slashes by (by apply lstrip_append_no_slash).
  by rewrite (partition_append _ _ _ Hname).
Qed.

(** X4.  Round trip of the path.  A path written as any number of
    slashes, a group name that is not empty and holds no [/], one [/] and
    the text of the database index gives back that group name, with the
    index read by [int]; it raises when [int] rejects the text. *)
Theorem parse_master_and_db_of_written_path (p : Urllib.ParseResult)
    (k : nat) (name db : string) :
  name <> "" ->
  Py.contains "/" name = false ->
  Urllib.path p = Text.slashes k +:+ name +:+ String "/" db ->
  _parse_master_and_db p = (n ← Py.int db; Ok (name, n)).
Proof.
  apply written_path_parses.
Qed.

Lemma parse_master_and_db_of_written_path_witness :
  let p := {| Urllib.scheme := "redis+sentinel"; Urllib.netloc := "h";
              Urllib.path := "//mymaster/ 1_5"; Urllib.query := "";
              Urllib.fragment := "" |} in
  Urllib.path p = Text.slashes 2 +:+ "mymaster" +:+ String "/" " 1_5"
  /\ _parse_master_and_db p = Ok ("mymaster", 15).
Proof.
  cbv zeta. split; [reflexivity|].
  exact (parse_master_and_db_of_written_path
    {| Urllib.scheme := "redis+sentinel"; Urllib.netloc := "h";
       Urllib.path := "//mymaster/ 1_5"; Urllib.query := "";
       Urllib.fragment := "" |} 2 "mymaster" " 1_5" ltac:(discriminate) eq_refl eq_refl).
Defined.

Lemma eqb_false_of (P : ascii -> bool) (c d : ascii) :
  P c = false -> P d = true -> Ascii.eqb c d = false.
Proof. intros Hc Hd. destruct (Ascii.eqb_spec c d) as [->|]; congruence. Qed.

Lemma lstrip_space_contains (c : ascii) (s : string) :
  Py.is_space c = false ->
  Py.contains c (Py.lstrip_space s) = Py.contains c s.
Proof.
  intros Hc. induction s as [|d s IH]; [done|]. cbn [Py.lstrip_space Py.contains].
  destruct (Py.is_space d) eqn:Hd; [|done].
  by rewrite IH, (eqb_false_of _ _ _ Hc Hd).
Qed.

Lemma rstrip_space_contains (c : ascii) (s : string) :
  Py.is_space c = false ->
  Py.contains c (Py.rstrip_space s) = Py.contains c s.
Proof.
  intros Hc. induction s as [|d s IH]; [done|]. cbn [Py.rstrip_space Py.contains].
  destruct (Py.rstrip_space s) as [|e t] eqn:Ht.
  - rewrite <- IH. cbn [Py.contains].
    destruct (Py.is_space d) eqn:Hd; cbn [Py.contains].
    + by rewrite (eqb_false_of _ _ _ Hc Hd).
    + by destruct (Ascii.eqb c d).
  - cbn [Py.contains]. by rewrite <- IH.
Qed.

Lemma read_digits_rejects (c : ascii) (s : string) (acc : N) (prev : ascii) :
  Py.is_digit c = false -> Ascii.eqb c "_" = false ->
  Py.contains c s = true ->
  Py.read_digits s acc prev = None.
Proof.
  intros Hd Hu. revert acc prev.
  induction s as [|d s IH]; intros acc prev; cbn [Py.contains Py.read_digits];
    [done|].
  destruct (Ascii.eqb_spec c d) as [<-|Hne].
  - intros _. by rewrite Hd, Hu.
  - intros Hs. destruct (Py.is_digit d); [by apply IH|].
    destruct (Ascii.eqb d "_" && Py.is_digit prev); [by apply IH|done].
Qed.

(** [int] rejects a text that holds a character which is no digit, no
    underscore, no sign and no whitespace. *)
Lemma int_rejects (c : ascii) (s : string) :
  Py.is_digit c = false -> Ascii.eqb c "_" = false -> Py.is_space c = false ->
  Ascii.eqb c "+" = false -> Ascii.eqb c "-" = false ->
  Py.contains c s = true ->
  Py.int s = Raise ValueError.
Proof.
  intros Hd Hu Hsp Hplus Hminus Hs. unfold Py.int, Py.strip_space.
  assert (Py.contains c (Py.rstrip_space (Py.lstrip_space s)) = true) as Ht
    by by rewrite rstrip_space_contains, lstrip_space_contains.
  destruct (Py.rstrip_space (Py.lstrip_space s)) as [|e t]; [done|].
  cbn [Py.contains] in Ht.
  assert (forall body, Py.contains c body = true ->
            match Py.read_digits body 0%N " " with
            | Some n => Ok (Z.of_N n)
            | None => Raise ValueError
            end = Raise ValueError
            /\ match Py.read_digits body 0%N " " with
               | Some n => Ok (- Z.of_N n)
               | None => Raise ValueError
               end = Raise ValueError) as Hbody.
  { intros body Hb. by rewrite (read_digits_rejects c body _ _ Hd Hu Hb). }
  destruct (Ascii.eqb_spec c e) as [<-|Hne].
  - assert (Py.contains c (String c t) = true) as Hc by apply contains_cons_same.
    destruct c as [[] [] [] [] [] [] [] []]; try discriminate;
      apply (Hbody _ Hc).
  - assert (Py.contains c (String e t) = true) as Hc.
    { cbn [Py.contains]. by destruct (Ascii.eqb c e). }
    destruct e as [[] [] [] [] [] [] [] []];
      first [ apply (Hbody _ Hc) | apply (Hbody _ Ht) ].
Qed.

(** X5.  After the group name, a trailing slash or a third path segment
    is a [ValueError]: the text after the first inner [/] is handed whole
    to [int], which rejects the empty text and any text with a [/]. *)
Theorem parse_master_and_db_rejects_more_segments (p : Urllib.ParseResult)
    (k : nat) (name db : string) :
  name <> "" ->
  Py.contains "/" name = false ->
  Urllib.path p = Text.slashes k +:+ name +:+ String "/" db ->
  db = "" \/ Py.contains "/" db = true ->
  _parse_master_and_db p = Raise ValueError.
Proof.
  intros Hne Hname Hpath Hdb.
  rewrite (written_path_parses p k name db Hne Hname Hpath).
  destruct Hdb as [->|Hdb]; [done|].
  by rewrite (int_rejects "/" db).
Qed.

Lemma parse_master_and_db_rejects_more_segments_witness :
  (let p := {| Urllib.scheme := "redis+sentinel"; Urllib.netloc := "h";
               Urllib.path := "/mymaster/"; Urllib.query := "";
               Urllib.fragment := "" |} in
   Urllib.path p = Text.slashes 1 +:+ "mymaster" +:+ String "/" ""
   /\ _parse_master_and_db p = Raise ValueError)
  /\ (let p := {| Urllib.scheme := "redis+sentinel"; Urllib.netloc := "h";
                  Urllib.path := "/mymaster/0/x"; Urllib.query := "";
                  Urllib.fragment := "" |} in
      Urllib.path p = Text.slashes 1 +:+ "mymaster" +:+ String "/" "0/x"
      /\ _parse_master_and_db p = Raise ValueError).
Proof.
  cbv zeta. split; (split; [reflexivity|]).
  - exact (parse_master_and_db_rejects_more_segments
      {| Urllib.scheme := "redis+sentinel"; Urllib.netloc := "h";
         Urllib.path := "/mymaster/"; Urllib.query := "";
         Urllib.fragment := "" |} 1 "mymaster" "" ltac:(discriminate)
      eq_refl eq_refl (or_introl eq_refl)).
  - exact (parse_master_and_db_rejects_more_segments
      {| Urllib.scheme := "redis+sentinel"; Urllib.netloc := "h";
         Urllib.path := "/mymaster/0/x"; Urllib.query := "";
         Urllib.fragment := "" |} 1 "mymaster" "0/x" ltac:(discriminate)
      eq_refl eq_refl (or_intror eq_refl)).
Defined.

(** ** The two construction paths, step by step *)

Lemma init_sentinel_client_unfold (cls : SentinelClass) (p : Urllib.ParseResult)
    (st : State) :
  _init_sentinel_client cls p st
  = match _parse_sentinel_parameters p with
    | Raise e => (Raise e, st)
    | Ok (sk, ck) =>
        match keywords [ {[ "socket_timeout" := timeout_val (sk_socket_timeout sk) ]};
                         sk_ssl_params sk; sk_auth_params sk;
                         provider_kwargs (self st) ] with
        | Raise e => (Raise e, st)
        | Ok k1 =>
            let called1 := calls st ++ [CallSentinel (sk_hosts sk) k1] in
            match sentinel_new cls (sk_hosts sk) k1 with
            | Raise e =>
                (Raise e, {| self := self st; app := app st; calls := called1 |})
            | Ok sentinel =>
                match keywords [ {[ "db" := VInt (ck_db ck);
                                    "socket_timeout" :=
                                      timeout_val (ck_socket_timeout ck);
                                    "decode_responses" :=
                                      VBool (decode_responses (self st)) ]};
                                 ck_ssl_params ck; ck_auth_params ck;
                                 provider_kwargs (self st) ] with
                | Raise e =>
                    (Raise e, {| self := self st; app := app st; calls := called1 |})
                | Ok k2 =>
                    let called2 :=
                      called1 ++ [CallMasterFor sentinel (sk_master_name sk) k2] in
                    match master_for cls sentinel (sk_master_name sk) k2 with
                    | Raise e =>
                        (Raise e,
                         {| self := self st; app := app st; calls := called2 |})
                    | Ok c =>
                        (Ok tt, {| self := with_redis_client c (self st);
                                   app := app st; calls := called2 |})
                    end
                end
            end
        end
    end.
Proof.
  unfold _init_sentinel_client, mbind, M_bind, get_self, lift, provider_call,
    set_self.
  destruct (_parse_sentinel_parameters p) as [[sk ck]|e]; [|done].
  destruct (keywords _) as [k1|e]; [|done]. cbn [calls self app].
  destruct (sentinel_new _ _ _) as [sentinel|e]; [|done].
  destruct (keywords _) as [k2|e]; [|done]. cbn [calls self app].
  by destruct (master_for _ _ _ _).
Qed.

Lemma standard_path_effect (url : string) (st : State) :
  Effects.path_effect st (_init_standard_client url st).
Proof.
  rewrite init_standard_client_unfold. unfold Effects.path_effect.
  destruct (keywords _) as [k|e]; simpl.
  - destruct (from_url _ _ _); simpl; eauto 10.
  - split; [done|]. split; [|done]. exists []. by rewrite app_nil_r.
Qed.

Lemma sentinel_path_effect (cls : SentinelClass) (p : Urllib.ParseResult)
    (st : State) :
  Effects.path_effect st (_init_sentinel_client cls p st).
Proof.
  rewrite init_sentinel_client_unfold. unfold Effects.path_effect.
  assert (exists new, calls st = calls st ++ new) as Hnil
    by (exists []; by rewrite app_nil_r).
  destruct (_parse_sentinel_parameters p) as [[sk ck]|e]; [|done].
  destruct (keywords _) as [k1|e]; [|done]. cbn zeta.
  destruct (sentinel_new _ _ _) as [sentinel|e]; simpl; [|eauto 10].
  destruct (keywords _) as [k2|e]; simpl; [|eauto 10].
  destruct (master_for _ _ _ _); simpl; rewrite <- app_assoc; eauto 10.
Qed.

(** Whatever path [init_app] takes has the effect of a path. *)
Lemma chosen_path_effect (G : Globals) (url : string) (p : Urllib.ParseResult)
    (st : State) :
  Effects.path_effect st
    ((if is_sentinel_scheme (Urllib.scheme p) then
        match Sentinel G with
        | None => raise ImportError
        | Some cls => _init_sentinel_client cls p
        end
      else _init_standard_client url) st).
Proof.
  destruct (is_sentinel_scheme _); [|apply standard_path_effect].
  destruct (Sentinel G); [apply sentinel_path_effect|].
  unfold Effects.path_effect, raise. simpl. split; [done|]. split; [|done].
  exists []. by rewrite app_nil_r.
Qed.

(** ** [init_app] as a whole *)

(** [init_app] ends at the URL parsing, or runs a path and registers the
    instance when the path returns. *)
Lemma init_app_outcome (G : Globals) (kw : kwargs) (st : State) :
  let st1 := {| self := update_provider_kwargs kw (self st); app := app st;
                calls := calls st |} in
  (exists e, init_app G kw st = (Raise e, st1))
  \/ (exists r st2,
        Effects.path_effect st1 (r, st2)
        /\ init_app G kw st
           = match r with
             | Ok _ =>
                 (Ok tt, {| self := self st2;
                            app := register (Py.lower (config_prefix (self st)))
                                     (oid (self st)) (app st2);
                            calls := calls st2 |})
             | Raise e => (Raise e, st2)
             end).
Proof.
  cbn zeta. rewrite init_app_unfold. cbn zeta.
  destruct (Urllib.urlparse _) as [p|e']; [right|left; by eexists].
  pose proof (chosen_path_effect G (configured_url (self st) (app st)) p
    {| self := update_provider_kwargs kw (self st); app := app st;
       calls := calls st |}) as Hpath.
  match type of Hpath with
  | Effects.path_effect _ ?out => destruct out as [r st2]
  end.
  exists r, st2. split; [exact Hpath|]. by destruct r as [[]|].
Qed.

Lemma init_app_raise_keeps (G : Globals) (kw : kwargs) (st : State) (e : exn) :
  (init_app G kw st).1 = Raise e ->
  _redis_client (self (init_app G kw st).2) = _redis_client (self st)
  /\ app (init_app G kw st).2 = app st.
Proof.
  destruct (init_app_outcome G kw st)
    as [[e' ->]|(r & st2 & (Happ & _ & Hself) & ->)]; [done|].
  destruct r as [[]|e']; simpl in *; [done|].
  intros _. by rewrite Hself, Happ.
Qed.

Lemma init_app_ok_registers (G : Globals) (kw : kwargs) (st : State) :
  (init_app G kw st).1 = Ok tt ->
  app (init_app G kw st).2
  = register (Py.lower (config_prefix (self st))) (oid (self st)) (app st)
  /\ exists c, self (init_app G kw st).2
              = with_redis_client c (update_provider_kwargs kw (self st)).
Proof.
  destruct (init_app_outcome G kw st)
    as [[e' ->]|(r & st2 & (Happ & _ & Hself) & ->)]; [done|].
  destruct r as [[]|e']; simpl in *; [|done].
  intros _. by rewrite Happ.
Qed.

(** X6.  [init_app] is all or nothing for the client and the registry:
    when it raises, whatever the exception and wherever it comes from
    (URL parsing, a missing [Sentinel], the parsers, a keyword given twice,
    the provider), the stored client and the application are what they
    were before the call. *)
Theorem init_app_failure_keeps_client_and_app (G : Globals) (kw : kwargs)
    (st : State) (e : exn) :
  (init_app G kw st).1 = Raise e ->
  _redis_client (self (init_app G kw st).2) = _redis_client (self st)
  /\ app (init_app G kw st).2 = app st.
Proof.
  apply init_app_raise_keeps.
Qed.

Lemma init_app_failure_keeps_client_and_app_witness :
  let st := {| self := {| oid := 7; _redis_client := Some 5%nat;
                          provider_class := Fixture.provider;
                          config_prefix := "REDIS"; decode_responses := true;
                          provider_kwargs := ∅ |};
               app := {| config := {[ "REDIS_URL" := "redis+sentinel://h:x/m/0" ]};
                         extensions := Some {[ "redis" := 3%nat ]} |};
               calls := [] |} in
  (init_app Fixture.with_sentinel ∅ st).1 = Raise ValueError
  /\ _redis_client (self (init_app Fixture.with_sentinel ∅ st).2) = Some 5%nat
  /\ app (init_app Fixture.with_sentinel ∅ st).2 = app st.
Proof.
  cbv zeta. split; [vm_compute; reflexivity|].
  refine (init_app_failure_keeps_client_and_app Fixture.with_sentinel ∅ _
            ValueError _).
  vm_compute. reflexivity.
Defined.

(** X7.  Whatever [init_app] does and however it ends, the instance
    keeps its identity, provider class, prefix and [decode_responses]; its
    keyword arguments become the ones of the call on top of the stored
    ones, also when the call raises; the configuration of the application
    is not written; and the calls made before stay, in order. *)
Theorem init_app_keeps_instance_settings (G : Globals) (kw : kwargs) (st : State) :
  let st' := (init_app G kw st).2 in
  oid (self st') = oid (self st)
  /\ provider_class (self st') = provider_class (self st)
  /\ config_prefix (self st') = config_prefix (self st)
  /\ decode_responses (self st') = decode_responses (self st)
  /\ provider_kwargs (self st') = kw ∪ provider_kwargs (self st)
  /\ config (app st') = config (app st)
  /\ calls st `prefix_of` calls st'.
Proof.
  cbn zeta. destruct (init_app_outcome G kw st)
    as [[e' ->]|(r & st2 & (Happ & [new Hcalls] & Hself) & ->)];
    [by repeat split|].
  destruct r as [[]|e']; simpl in *.
  - destruct Hself as [c ->]. rewrite Happ, Hcalls. simpl.
    repeat split. by apply prefix_app_r.
  - rewrite Hself, Happ, Hcalls. simpl. repeat split. by apply prefix_app_r.
Qed.

(** X8.  When [init_app] returns, the instance holds a client and is
    registered in the application's extensions under its prefix in lower
    case, beside the extensions that were there (an entry under that key
    is replaced); the registry is created when the application had
    none. *)
Theorem init_app_success_registers (G : Globals) (kw : kwargs) (st : State) :
  (init_app G kw st).1 = Ok tt ->
  let st' := (init_app G kw st).2 in
  let key := Py.lower (config_prefix (self st)) in
  is_Some (_redis_client (self st'))
  /\ (exists registry, extensions (app st') = Some registry
        /\ registry !! key = Some (oid (self st))
        /\ forall other, other <> key ->
             registry !! other = default ∅ (extensions (app st)) !! other).
Proof.
  intros Hok. destruct (init_app_ok_registers G kw st Hok) as (Happ & c & Hself).
  cbn zeta. rewrite Hself, Happ. simpl. split; [by eexists|].
  eexists. split; [reflexivity|]. split; [apply lookup_insert_eq|].
  intros other Hne. by rewrite lookup_insert_ne.
Qed.

Lemma init_app_success_registers_witness :
  let st := {| self := {| oid := 7; _redis_client := None;
                          provider_class := Fixture.provider;
                          config_prefix := "Cache"; decode_responses := true;
                          provider_kwargs := ∅ |};
               app := {| config := {[ "Cache_URL" := "redis://localhost:6379/1" ]};
                         extensions := None |};
               calls := [] |} in
  (init_app Fixture.with_sentinel ∅ st).1 = Ok tt
  /\ is_Some (_redis_client (self (init_app Fixture.with_sentinel ∅ st).2))
  /\ (exists registry,
        extensions (app (init_app Fixture.with_sentinel ∅ st).2) = Some registry
        /\ registry !! "cache" = Some 7%nat
        /\ forall other, other <> "cache" ->
             registry !! other = default ∅ (extensions (app st)) !! other).
Proof.
  cbv zeta. split; [vm_compute; reflexivity|].
  refine (init_app_success_registers Fixture.with_sentinel ∅ _ _).
  vm_compute. reflexivity.
Defined.

(** ** Keywords given twice *)

Lemma keywords_raise_stays (e : exn) (ds : list kwargs) :
  foldl kw_add (Raise e) ds = Raise e.
Proof. induction ds as [|d ds IH]; [done|]. exact IH. Qed.

(** Once a keyword is among the merged ones, a later dictionary that
    holds it too ends the merge with a [TypeError]. *)
Lemma keywords_clash_from (a : kwargs) (ds : list kwargs) (d : kwargs) (key : string) :
  is_Some (a !! key) -> d ∈ ds -> is_Some (d !! key) ->
  foldl kw_add (Ok a) ds = Raise TypeError.
Proof.
  revert a. induction ds as [|d0 ds IH]; intros a Ha Hd Hkey;
    [by apply elem_of_nil in Hd|].
  cbn [foldl]. unfold kw_add at 2. cbn [mbind result_bind].
  destruct (decide (a ##ₘ d0)) as [Hdisj|_]; [|apply keywords_raise_stays].
  apply elem_of_cons in Hd as [->|Hd].
  - destruct Ha as [x Hx], Hkey as [y Hy].
    by destruct (map_disjoint_spec a d0) as [Hs _]; destruct (Hs Hdisj key x y).
  - apply (IH (a ∪ d0)); [|done..].
    destruct Ha as [x Hx]. exists x. by apply lookup_union_Some_l.
Qed.

Lemma keywords_clash_first (d1 : kwargs) (ds : list kwargs) (d : kwargs) (key : string) :
  is_Some (d1 !! key) -> d ∈ ds -> is_Some (d !! key) ->
  keywords (d1 :: ds) = Raise TypeError.
Proof.
  intros H1 Hd Hkey. unfold keywords. cbn [foldl]. unfold kw_add at 2.
  cbn [mbind result_bind].
  destruct (decide (∅ ##ₘ d1)) as [_|Hn]; [|destruct Hn; apply map_disjoint_empty_l].
  rewrite (left_id_L ∅ (∪)). by eapply keywords_clash_from.
Qed.

(** Two dictionaries without a common keyword merge into their union. *)
Lemma keywords_pair (d1 d2 : kwargs) :
  d1 ##ₘ d2 -> keywords [d1; d2] = Ok (d1 ∪ d2).
Proof.
  intros Hd. unfold keywords. cbn [foldl]. unfold kw_add at 2.
  cbn [mbind result_bind].
  destruct (decide (∅ ##ₘ d1)) as [_|Hn]; [|destruct Hn; apply map_disjoint_empty_l].
  rewrite (left_id_L ∅ (∪)). unfold kw_add. cbn [mbind result_bind].
  by rewrite decide_True.
Qed.

(** ** The direct path *)

Lemma init_app_direct (G : Globals) (kw : kwargs) (st : State)
    (p : Urllib.ParseResult) :
  Urllib.urlparse (configured_url (self st) (app st)) = Ok p ->
  is_sentinel_scheme (Urllib.scheme p) = false ->
  let url := configured_url (self st) (app st) in
  let o := update_provider_kwargs kw (self st) in
  init_app G kw st
  = match keywords [ {[ "decode_responses" := VBool (decode_responses (self st)) ]};
                     kw ∪ provider_kwargs (self st) ] with
    | Raise e => (Raise e, {| self := o; app := app st; calls := calls st |})
    | Ok k =>
        let called := calls st ++ [CallFromUrl url k] in
        match from_url (provider_class (self st)) url k with
        | Ok c =>
            (Ok tt, {| self := with_redis_client c o;
                       app := register (Py.lower (config_prefix (self st)))
                                (oid (self st)) (app st);
                       calls := called |})
        | Raise e => (Raise e, {| self := o; app := app st; calls := called |})
        end
    end.
Proof.
  intros Hp Hs. cbn zeta. rewrite init_app_unfold. cbn zeta. rewrite Hp, Hs.
  rewrite init_standard_client_unfold. simpl.
  destruct (keywords _) as [k|e]; [|done]. cbn zeta.
  by destruct (from_url _ _ _).
Qed.

(** X9.  On the direct path [decode_responses] is always passed by the
    client itself, so an instance whose keyword arguments hold
    [decode_responses] (given to the constructor's extra keywords or to
    [init_app]) cannot be initialised: the call expression raises
    [TypeError] and [from_url] is not reached. *)
Theorem direct_path_rejects_decode_responses_keyword (G : Globals) (kw : kwargs)
    (st : State) (p : Urllib.ParseResult) :
  Urllib.urlparse (configured_url (self st) (app st)) = Ok p ->
  is_sentinel_scheme (Urllib.scheme p) = false ->
  is_Some ((kw ∪ provider_kwargs (self st)) !! "decode_responses") ->
  (init_app G kw st).1 = Raise TypeError
  /\ calls (init_app G kw st).2 = calls st.
Proof.
  intros Hp Hs Hkey. rewrite (init_app_direct G kw st p Hp Hs). cbn zeta.
  rewrite (keywords_clash_first _ _ (kw ∪ provider_kwargs (self st))
             "decode_responses"); [done| |apply list_elem_of_here|done].
  rewrite lookup_singleton_eq. by eexists.
Qed.

Lemma direct_path_rejects_decode_responses_keyword_witness :
  let st := Fixture.state "redis://localhost:6379/0" in
  let kw : kwargs := {[ "decode_responses" := VBool false ]} in
  is_ok (Urllib.urlparse (configured_url (self st) (app st))) = true
  /\ (init_app Fixture.with_sentinel kw st).1 = Raise TypeError
  /\ calls (init_app Fixture.with_sentinel kw st).2 = calls st.
Proof.
  cbv zeta. split; [reflexivity|].
  apply (direct_path_rejects_decode_responses_keyword Fixture.with_sentinel
    {[ "decode_responses" := VBool false ]}
    (Fixture.state "redis://localhost:6379/0")
    {| Urllib.scheme := "redis"; Urllib.netloc := "localhost:6379";
       Urllib.path := "/0"; Urllib.query := ""; Urllib.fragment := "" |});
    [reflexivity | reflexivity | vm_compute; eexists; reflexivity].
Defined.

(** X10.  On the direct path, when the keyword arguments do not hold
    [decode_responses], [from_url] is called exactly once, with the
    configured URL and with those keyword arguments plus
    [decode_responses]; [init_app] returns exactly when [from_url] returns,
    storing the client it gave, and an exception of [from_url] reaches the
    caller unchanged. *)
Theorem direct_path_follows_from_url (G : Globals) (kw : kwargs)
    (st : State) (p : Urllib.ParseResult) :
  Urllib.urlparse (configured_url (self st) (app st)) = Ok p ->
  is_sentinel_scheme (Urllib.scheme p) = false ->
  (kw ∪ provider_kwargs (self st)) !! "decode_responses" = None ->
  let url := configured_url (self st) (app st) in
  let k := <[ "decode_responses" := VBool (decode_responses (self st)) ]>
             (kw ∪ provider_kwargs (self st)) in
  calls (init_app G kw st).2 = calls st ++ [CallFromUrl url k]
  /\ match from_url (provider_class (self st)) url k with
     | Ok c => (init_app G kw st).1 = Ok tt
               /\ _redis_client (self (init_app G kw st).2) = Some c
     | Raise e => (init_app G kw st).1 = Raise e
     end.
Proof.
  intros Hp Hs Hkey. cbn zeta. rewrite (init_app_direct G kw st p Hp Hs). cbn zeta.
  rewrite keywords_pair by by apply map_disjoint_singleton_l.
  rewrite <- insert_union_singleton_l.
  by destruct (from_url _ _ _).
Qed.

Lemma direct_path_follows_from_url_witness :
  let st := Fixture.state "rediss://localhost:6379/0" in
  let kw : kwargs := {[ "max_connections" := VInt 10 ]} in
  is_ok (Urllib.urlparse (configured_url (self st) (app st))) = true
  /\ (kw ∪ provider_kwargs (self st)) !! "decode_responses" = None
  /\ calls (init_app Fixture.with_sentinel kw st).2
     = [CallFromUrl "rediss://localhost:6379/0"
          {[ "decode_responses" := VBool true; "max_connections" := VInt 10 ]}]
  /\ (init_app Fixture.with_sentinel kw st).1 = Ok tt
  /\ _redis_client (self (init_app Fixture.with_sentinel kw st).2) = Some 1%nat.
Proof.
  cbv zeta. split; [reflexivity|]. split; [vm_compute; reflexivity|].
  destruct (direct_path_follows_from_url Fixture.with_sentinel
    ({[ "max_connections" := VInt 10 ]} : kwargs)
    (Fixture.state "rediss://localhost:6379/0")
    {| Urllib.scheme := "rediss"; Urllib.netloc := "localhost:6379";
       Urllib.path := "/0"; Urllib.query := ""; Urllib.fragment := "" |})
    as [Hc Hr]; [reflexivity | reflexivity | vm_compute; reflexivity |].
  split; [|exact Hr]. rewrite Hc. vm_compute. reflexivity.
Defined.



(** ** The sentinel path *)

Lemma keywords_clash_later (a : kwargs) (pre post : list kwargs) (d d' : kwargs)
    (key : string) :
  is_Some (d !! key) -> d' ∈ post -> is_Some (d' !! key) ->
  foldl kw_add (Ok a) (pre ++ d :: post) = Raise TypeError.
Proof.
  intros Hd Hin Hd'. revert a. induction pre as [|x pre IH]; intros a.
  - rewrite app_nil_l. cbn [foldl]. unfold kw_add at 2. cbn [mbind result_bind].
    destruct (decide (a ##ₘ d)) as [_|_]; [|apply keywords_raise_stays].
    apply (keywords_clash_from _ _ d' key); [|done..].
    destruct Hd as [v Hv]. destruct (a !! key) as [w|] eqn:Ha.
    + exists w. by apply lookup_union_Some_l.
    + exists v. rewrite lookup_union_r; done.
  - rewrite <- app_comm_cons. cbn [foldl]. unfold kw_add at 2.
    cbn [mbind result_bind].
    destruct (decide (a ##ₘ x)) as [_|_]; [apply IH|apply keywords_raise_stays].
Qed.

(** Case analysis on the keyword merge that the goal branches on. *)
Ltac case_keywords k e H :=
  match goal with
  | |- context [match keywords ?l with Ok _ => _ | Raise _ => _ end] =>
      destruct (keywords l) as [k|e] eqn:H
  end.

Lemma init_app_sentinel (G : Globals) (kw : kwargs) (st : State)
    (p : Urllib.ParseResult) (cls : SentinelClass) :
  Urllib.urlparse (configured_url (self st) (app st)) = Ok p ->
  is_sentinel_scheme (Urllib.scheme p) = true ->
  Sentinel G = Some cls ->
  init_app G kw st
  = match _init_sentinel_client cls p
            {| self := update_provider_kwargs kw (self st); app := app st;
               calls := calls st |} with
    | (Ok _, st2) =>
        (Ok tt, {| self := self st2;
                   app := register (Py.lower (config_prefix (self st)))
                            (oid (self st)) (app st2);
                   calls := calls st2 |})
    | (Raise e, st2) => (Raise e, st2)
    end.
Proof.
  intros Hp Hs HS. rewrite init_app_unfold. cbn zeta. by rewrite Hp, Hs, HS.
Qed.

(** X12.  When [init_app] returns on a sentinel URL, the provider was
    called exactly twice: [Sentinel] on the parsed hosts, then
    [master_for] of that sentinel on the parsed group name; the keyword
    arguments of each call are the merge of the client's own
    ([socket_timeout]; then [db], [socket_timeout], [decode_responses])
    with the security parameters, the credentials and the instance's
    keyword arguments; and the stored client is the one [master_for]
    returned. *)
Theorem sentinel_path_builds_sentinel_then_master (G : Globals) (kw : kwargs)
    (st : State) (p : Urllib.ParseResult) (cls : SentinelClass) :
  Urllib.urlparse (configured_url (self st) (app st)) = Ok p ->
  is_sentinel_scheme (Urllib.scheme p) = true ->
  Sentinel G = Some cls ->
  (init_app G kw st).1 = Ok tt ->
  exists sk ck k1 k2 sentinel c,
    _parse_sentinel_parameters p = Ok (sk, ck)
    /\ keywords [ {[ "socket_timeout" := timeout_val (sk_socket_timeout sk) ]};
                  sk_ssl_params sk; sk_auth_params sk;
                  kw ∪ provider_kwargs (self st) ] = Ok k1
    /\ keywords [ {[ "db" := VInt (ck_db ck);
                     "socket_timeout" := timeout_val (ck_socket_timeout ck);
                     "decode_responses" := VBool (decode_responses (self st)) ]};
                  ck_ssl_params ck; ck_auth_params ck;
                  kw ∪ provider_kwargs (self st) ] = Ok k2
    /\ sentinel_new cls (sk_hosts sk) k1 = Ok sentinel
    /\ master_for cls sentinel (sk_master_name sk) k2 = Ok c
    /\ calls (init_app G kw st).2
       = calls st ++ [CallSentinel (sk_hosts sk) k1;
                      CallMasterFor sentinel (sk_master_name sk) k2]
    /\ _redis_client (self (init_app G kw st).2) = Some c.
Proof.
  intros Hp Hs HS. rewrite (init_app_sentinel G kw st p cls Hp Hs HS).
  rewrite init_sentinel_client_unfold. cbn [self app calls update_provider_kwargs
    provider_kwargs decode_responses].
  destruct (_parse_sentinel_parameters p) as [[sk ck]|e]; [|discriminate].
  case_keywords k1 e Hk1; [|discriminate]. cbn zeta.
  destruct (sentinel_new _ _ _) as [sentinel|e] eqn:Hnew; [|discriminate].
  case_keywords k2 e Hk2; [|discriminate]. cbn zeta.
  destruct (master_for _ _ _ _) as [c|e] eqn:Hm; [|discriminate].
  intros _. exists sk, ck, k1, k2, sentinel, c.
  split; [reflexivity|]. split; [exact Hk1|]. split; [exact Hk2|].
  split; [exact Hnew|]. split; [exact Hm|].
  cbn [fst snd calls self with_redis_client _redis_client].
  split; [|reflexivity]. rewrite <- app_assoc. reflexivity.
Qed.

Lemma sentinel_path_builds_sentinel_then_master_witness :
  let st := Fixture.state "redis+sentinel://localhost:26379/mymaster/0" in
  is_ok (Urllib.urlparse (configured_url (self st) (app st))) = true
  /\ (init_app Fixture.with_sentinel ∅ st).1 = Ok tt
  /\ calls (init_app Fixture.with_sentinel ∅ st).2
     = [CallSentinel [("localhost", 26379)] {[ "socket_timeout" := VNone ]};
        CallMasterFor 2%nat "mymaster"
          {[ "db" := VInt 0; "socket_timeout" := VNone;
             "decode_responses" := VBool true ]}]
  /\ _redis_client (self (init_app Fixture.with_sentinel ∅ st).2) = Some 3%nat.
Proof.
  cbv zeta. split; [reflexivity|]. split; [vm_compute; reflexivity|].
  destruct (sentinel_path_builds_sentinel_then_master Fixture.with_sentinel ∅
    (Fixture.state "redis+sentinel://localhost:26379/mymaster/0")
    {| Urllib.scheme := "redis+sentinel"; Urllib.netloc := "localhost:26379";
       Urllib.path := "/mymaster/0"; Urllib.query := ""; Urllib.fragment := "" |}
    Fixture.sentinel_class)
    as (sk & ck & k1 & k2 & s & c & _ & _ & _ & _ & Hm & _ & Hc);
    [reflexivity | reflexivity | reflexivity | vm_compute; reflexivity |].
  split; [vm_compute; reflexivity|]. rewrite Hc. f_equal.
  vm_compute in Hm. by injection Hm.
Defined.

(** X13.  Branch exclusivity on the sentinel side: on a sentinel URL,
    however [init_app] ends and whether [Sentinel] is there or not,
    [from_url] is never called; at most two calls are made. *)
Theorem sentinel_scheme_never_calls_from_url (G : Globals) (kw : kwargs)
    (st : State) (p : Urllib.ParseResult) :
  Urllib.urlparse (configured_url (self st) (app st)) = Ok p ->
  is_sentinel_scheme (Urllib.scheme p) = true ->
  exists new, calls (init_app G kw st).2 = calls st ++ new
    /\ (length new <= 2)%nat
    /\ Forall (fun c => match c with
                        | CallFromUrl _ _ => False
                        | _ => True
                        end) new.
Proof.
  intros Hp Hs. rewrite init_app_unfold. cbn zeta. rewrite Hp, Hs.
  assert (exists new : list call, calls st = calls st ++ new
            /\ (length new <= 2)%nat
            /\ Forall (fun c => match c with
                                | CallFromUrl _ _ => False
                                | _ => True
                                end) new) as Hnone.
  { exists []. rewrite app_nil_r. repeat split; [simpl; lia|constructor]. }
  destruct (Sentinel G) as [cls|]; [|done].
  rewrite init_sentinel_client_unfold. cbn [self app calls].
  destruct (_parse_sentinel_parameters p) as [[sk ck]|e]; [|done].
  destruct (keywords _) as [k1|e]; [|done]. cbn zeta.
  assert (exists new : list call,
            calls st ++ [CallSentinel (sk_hosts sk) k1] = calls st ++ new
            /\ (length new <= 2)%nat
            /\ Forall (fun c => match c with
                                | CallFromUrl _ _ => False
                                | _ => True
                                end) new) as Hone.
  { eexists. split; [reflexivity|]. split; [simpl; lia|by repeat constructor]. }
  destruct (sentinel_new _ _ _) as [sentinel|e]; [|done].
  destruct (keywords _) as [k2|e]; [|done]. cbn zeta.
  destruct (master_for _ _ _ _) as [c|e]; simpl; rewrite <- app_assoc;
    (eexists; split; [reflexivity|]; split; [simpl; lia|by repeat constructor]).
Qed.

Lemma sentinel_scheme_never_calls_from_url_witness :
  let st := Fixture.state "rediss+sentinel://h1,h2/grp/1" in
  is_ok (Urllib.urlparse (configured_url (self st) (app st))) = true
  /\ exists new, calls (init_app Fixture.with_sentinel ∅ st).2 = calls st ++ new
       /\ (length new <= 2)%nat
       /\ Forall (fun c => match c with
                           | CallFromUrl _ _ => False
                           | _ => True
                           end) new.
Proof.
  cbv zeta. split; [reflexivity|].
  exact (sentinel_scheme_never_calls_from_url Fixture.with_sentinel ∅
    (Fixture.state "rediss+sentinel://h1,h2/grp/1")
    {| Urllib.scheme := "rediss+sentinel"; Urllib.netloc := "h1,h2";
       Urllib.path := "/grp/1"; Urllib.query := ""; Urllib.fragment := "" |}
    eq_refl eq_refl).
Defined.

(** X14.  On the sentinel path [socket_timeout] is always passed by the
    client itself, and the security parameters and the credentials are
    spread as keywords.  An instance whose keyword arguments hold
    [socket_timeout], or a key of the resolved security parameters or
    credentials (such as [ssl] or [password]), cannot be initialised from a
    sentinel URL: building the [Sentinel] call raises [TypeError], and the
    provider is not reached. *)
Theorem sentinel_path_rejects_repeated_keyword (G : Globals) (kw : kwargs)
    (st : State) (p : Urllib.ParseResult) (cls : SentinelClass)
    (sk : sentinel_kwargs_t) (ck : client_kwargs_t) (key : string) :
  Urllib.urlparse (configured_url (self st) (app st)) = Ok p ->
  is_sentinel_scheme (Urllib.scheme p) = true ->
  Sentinel G = Some cls ->
  _parse_sentinel_parameters p = Ok (sk, ck) ->
  is_Some ((kw ∪ provider_kwargs (self st)) !! key) ->
  key = "socket_timeout" \/ is_Some (sk_ssl_params sk !! key)
    \/ is_Some (sk_auth_params sk !! key) ->
  (init_app G kw st).1 = Raise TypeError
  /\ calls (init_app G kw st).2 = calls st.
Proof.
  intros Hp Hs HS Hparse Hkey Hwhere.
  rewrite (init_app_sentinel G kw st p cls Hp Hs HS).
  rewrite init_sentinel_client_unfold, Hparse.
  cbn [self app calls update_provider_kwargs provider_kwargs decode_responses].
  assert (keywords [ {[ "socket_timeout" := timeout_val (sk_socket_timeout sk) ]};
                     sk_ssl_params sk; sk_auth_params sk;
                     kw ∪ provider_kwargs (self st) ] = Raise TypeError) as Hk;
    [|rewrite Hk; split; reflexivity].
  destruct Hwhere as [->|[Hssl|Hauth]].
  - apply (keywords_clash_first _ _ (kw ∪ provider_kwargs (self st))
             "socket_timeout");
      [|do 2 apply list_elem_of_further; apply list_elem_of_here|done].
    rewrite lookup_singleton_eq. by eexists.
  - apply (keywords_clash_later ∅ [_] [_; _] (sk_ssl_params sk)
             (kw ∪ provider_kwargs (self st)) key);
      [done|apply list_elem_of_further, list_elem_of_here|done].
  - apply (keywords_clash_later ∅ [_; _] [_] (sk_auth_params sk)
             (kw ∪ provider_kwargs (self st)) key);
      [done|apply list_elem_of_here|done].
Qed.

Lemma sentinel_path_rejects_repeated_keyword_witness :
  let st := Fixture.state "redis+sentinel://localhost:26379/mymaster/0" in
  let kw : kwargs := {[ "socket_timeout" := VInt 5 ]} in
  is_ok (Urllib.urlparse (configured_url (self st) (app st))) = true
  /\ (init_app Fixture.with_sentinel kw st).1 = Raise TypeError
  /\ calls (init_app Fixture.with_sentinel kw st).2 = calls st.
Proof.
  cbv zeta. split; [reflexivity|].
  eapply (sentinel_path_rejects_repeated_keyword Fixture.with_sentinel
    ({[ "socket_timeout" := VInt 5 ]} : kwargs)
    (Fixture.state "redis+sentinel://localhost:26379/mymaster/0")
    {| Urllib.scheme := "redis+sentinel"; Urllib.netloc := "localhost:26379";
       Urllib.path := "/mymaster/0"; Urllib.query := ""; Urllib.fragment := "" |}
    Fixture.sentinel_class _ _ "socket_timeout");
    [reflexivity | reflexivity | reflexivity | vm_compute; reflexivity
    | vm_compute; eexists; reflexivity | left; reflexivity].
Defined.

(** X15.  [db] and [decode_responses] are passed by the client to
    [master_for] only.  With [db] or [decode_responses] among the
    instance's keyword arguments (and nothing that already stops the
    [Sentinel] call), the [Sentinel] is built, then the [master_for] call
    raises [TypeError]: one call reached the provider and no client is
    stored. *)
Theorem sentinel_path_rejects_db_keyword_after_sentinel (G : Globals)
    (kw : kwargs) (st : State) (p : Urllib.ParseResult) (cls : SentinelClass)
    (sk : sentinel_kwargs_t) (ck : client_kwargs_t) (k1 : kwargs)
    (sentinel : handle) (key : string) :
  Urllib.urlparse (configured_url (self st) (app st)) = Ok p ->
  is_sentinel_scheme (Urllib.scheme p) = true ->
  Sentinel G = Some cls ->
  _parse_sentinel_parameters p = Ok (sk, ck) ->
  keywords [ {[ "socket_timeout" := timeout_val (sk_socket_timeout sk) ]};
             sk_ssl_params sk; sk_auth_params sk;
             kw ∪ provider_kwargs (self st) ] = Ok k1 ->
  sentinel_new cls (sk_hosts sk) k1 = Ok sentinel ->
  key = "db" \/ key = "decode_responses" ->
  is_Some ((kw ∪ provider_kwargs (self st)) !! key) ->
  (init_app G kw st).1 = Raise TypeError
  /\ calls (init_app G kw st).2 = calls st ++ [CallSentinel (sk_hosts sk) k1]
  /\ _redis_client (self (init_app G kw st).2) = _redis_client (self st).
Proof.
  intros Hp Hs HS Hparse Hk1 Hnew Hwhich Hkey.
  rewrite (init_app_sentinel G kw st p cls Hp Hs HS).
  rewrite init_sentinel_client_unfold, Hparse.
  cbn [self app calls update_provider_kwargs provider_kwargs decode_responses].
  rewrite Hk1. cbn zeta. rewrite Hnew.
  assert (keywords [ {[ "db" := VInt (ck_db ck);
                        "socket_timeout" := timeout_val (ck_socket_timeout ck);
                        "decode_responses" := VBool (decode_responses (self st)) ]};
                     ck_ssl_params ck; ck_auth_params ck;
                     kw ∪ provider_kwargs (self st) ] = Raise TypeError) as Hk;
    [|rewrite Hk; repeat split; reflexivity].
  apply (keywords_clash_first _ _ (kw ∪ provider_kwargs (self st)) key);
    [|do 2 apply list_elem_of_further; apply list_elem_of_here|done].
  destruct Hwhich as [->| ->].
  - rewrite lookup_insert_eq. by eexists.
  - rewrite !lookup_insert_ne, lookup_singleton_eq by done. by eexists.
Qed.

Lemma sentinel_path_rejects_db_keyword_after_sentinel_witness :
  let st := Fixture.state "redis+sentinel://localhost:26379/mymaster/0" in
  let kw : kwargs := {[ "db" := VInt 2 ]} in
  is_ok (Urllib.urlparse (configured_url (self st) (app st))) = true
  /\ (init_app Fixture.with_sentinel kw st).1 = Raise TypeError
  /\ calls (init_app Fixture.with_sentinel kw st).2
     = calls st ++ [CallSentinel [("localhost", 26379)]
                      {[ "socket_timeout" := VNone; "db" := VInt 2 ]}]
  /\ _redis_client (self (init_app Fixture.with_sentinel kw st).2)
     = _redis_client (self st).
Proof.
  cbv zeta. split; [reflexivity|].
  edestruct (sentinel_path_rejects_db_keyword_after_sentinel Fixture.with_sentinel
    ({[ "db" := VInt 2 ]} : kwargs)
    (Fixture.state "redis+sentinel://localhost:26379/mymaster/0")
    {| Urllib.scheme := "redis+sentinel"; Urllib.netloc := "localhost:26379";
       Urllib.path := "/mymaster/0"; Urllib.query := ""; Urllib.fragment := "" |}
    Fixture.sentinel_class
    {| sk_hosts := [("localhost", 26379)]; sk_socket_timeout := None;
       sk_ssl_params := ∅; sk_auth_params := ∅; sk_master_name := "mymaster" |}
    {| ck_db := 0; ck_socket_timeout := None; ck_ssl_params := ∅;
       ck_auth_params := ∅ |}
    ({[ "socket_timeout" := VNone; "db" := VInt 2 ]} : kwargs)
    2%nat "db") as (Hr & Hc & Hk);
    [reflexivity | reflexivity | reflexivity | vm_compute; reflexivity
    | vm_compute; reflexivity | reflexivity | left; reflexivity
    | vm_compute; eexists; reflexivity |].
  split; [exact Hr|]. split; [|exact Hk]. rewrite Hc. vm_compute. reflexivity.
Defined.

(** ** Several instances on one application *)

(** X16.  Two initialisations on the same application, one after the
    other, both returning: the later instance is registered under its
    lower-cased prefix, and the earlier one is still registered under its
    own unless the two prefixes are equal in lower case, in which case the
    later registration has replaced it.  (The second instance may be the
    first one again: initialising twice re-registers it.) *)
Theorem later_registration_wins_on_equal_key (G : Globals) (kw1 kw2 : kwargs)
    (st : State) (o2 : FlaskRedis) :
  let st1 := (init_app G kw1 st).2 in
  let st2 := (init_app G kw2 {| self := o2; app := app st1;
                                calls := calls st1 |}).2 in
  (init_app G kw1 st).1 = Ok tt ->
  (init_app G kw2 {| self := o2; app := app st1; calls := calls st1 |}).1 = Ok tt ->
  exists registry, extensions (app st2) = Some registry
    /\ registry !! Py.lower (config_prefix o2) = Some (oid o2)
    /\ (Py.lower (config_prefix (self st)) <> Py.lower (config_prefix o2) ->
        registry !! Py.lower (config_prefix (self st)) = Some (oid (self st))).
Proof.
  intros st1 st2 H1 H2.
  destruct (init_app_ok_registers G kw1 st H1) as (Happ1 & _).
  destruct (init_app_ok_registers G kw2 _ H2) as (Happ2 & _).
  subst st2. rewrite Happ2. cbn [self app]. subst st1. rewrite Happ1.
  eexists. split; [reflexivity|]. split; [apply lookup_insert_eq|].
  intros Hne. rewrite lookup_insert_ne by done. cbn [extensions register default].
  apply lookup_insert_eq.
Qed.

Lemma later_registration_wins_on_equal_key_witness :
  let st := {| self := {| oid := 1; _redis_client := None;
                          provider_class := Fixture.provider;
                          config_prefix := "DBA"; decode_responses := true;
                          provider_kwargs := ∅ |};
               app := {| config := {[ "DBA_URL" := "redis://localhost:6379/1";
                                      "DBB_URL" := "redis://localhost:6379/2" ]};
                         extensions := Some ∅ |};
               calls := [] |} in
  let o2 := {| oid := 2; _redis_client := None;
               provider_class := Fixture.provider;
               config_prefix := "DBB"; decode_responses := true;
               provider_kwargs := ∅ |} in
  let st1 := (init_app Fixture.with_sentinel ∅ st).2 in
  let st2 := (init_app Fixture.with_sentinel ∅
                {| self := o2; app := app st1; calls := calls st1 |}).2 in
  (init_app Fixture.with_sentinel ∅ st).1 = Ok tt
  /\ exists registry, extensions (app st2) = Some registry
       /\ registry !! "dbb" = Some 2%nat
       /\ (Py.lower "DBA" <> Py.lower "DBB" -> registry !! "dba" = Some 1%nat).
Proof.
  cbv zeta. split; [vm_compute; reflexivity|].
  refine (later_registration_wins_on_equal_key Fixture.with_sentinel ∅ ∅ _
    {| oid := 2; _redis_client := None; provider_class := Fixture.provider;
       config_prefix := "DBB"; decode_responses := true;
       provider_kwargs := ∅ |} _ _); vm_compute; reflexivity.
Defined.

(** ** The constructors *)

Import Class.

Lemma init_if_app_raise_keeps (G : Globals) (o : FlaskRedis) (a : option App)
    (cs : list call) (e : ctor_exn) :
  instance (init_if_app G o a cs) = inl e ->
  app_after (init_if_app G o a cs) = a.
Proof.
  unfold init_if_app. destruct a as [a|]; [|done].
  pose proof (init_app_raise_keeps G ∅ {| self := o; app := a; calls := cs |})
    as Hkeep.
  destruct (init_app G ∅ _) as [[[]|e'] st']; simpl; [done|].
  intros _. destruct (Hkeep e' eq_refl) as [_ Happ]. simpl in Happ.
  by rewrite Happ.
Qed.

(** X17.  A constructor call that raises leaves the application it was
    given as it was (nothing is registered), for [FlaskRedis(app, ...)] and
    for [from_custom_provider] alike and whatever was raised. *)
Theorem failed_construction_leaves_app (redis : option RedisModule) (G : Globals)
    (new_oid : nat) (provider : option Provider) (a : option App) (strict : bool)
    (prefix : string) (decode : bool) (kw : kwargs) (cs : list call)
    (e : ctor_exn) :
  (instance (__init__ redis G new_oid a strict prefix decode kw cs) = inl e ->
   app_after (__init__ redis G new_oid a strict prefix decode kw cs) = a)
  /\ (instance (from_custom_provider redis G new_oid provider a strict prefix
                 decode kw cs) = inl e ->
      app_after (from_custom_provider redis G new_oid provider a strict prefix
                   decode kw cs) = a).
Proof.
  split.
  - unfold __init__. destruct redis as [r|]; [|done]. apply init_if_app_raise_keeps.
  - unfold from_custom_provider, __init__. destruct provider as [pv|]; [|done].
    destruct redis as [r|]; [|done]. cbn [init_if_app instance calls_after].
    apply init_if_app_raise_keeps.
Qed.

Lemma failed_construction_leaves_app_witness :
  let a := Fixture.application "redis+sentinel://h:x/m/0" in
  instance (__init__ (Some {| StrictRedis := Fixture.provider;
                              Redis := Fixture.provider |})
              Fixture.with_sentinel 1 (Some a) true "REDIS" true ∅ [])
  = inl (FromInitApp ValueError)
  /\ app_after (__init__ (Some {| StrictRedis := Fixture.provider;
                                  Redis := Fixture.provider |})
                  Fixture.with_sentinel 1 (Some a) true "REDIS" true ∅ [])
     = Some a.
Proof.
  cbv zeta. split; [vm_compute; reflexivity|].
  destruct (failed_construction_leaves_app
    (Some {| StrictRedis := Fixture.provider; Redis := Fixture.provider |})
    Fixture.with_sentinel 1 None
    (Some (Fixture.application "redis+sentinel://h:x/m/0")) true "REDIS" true ∅ []
    (FromInitApp ValueError)) as [Hinit _].
  apply Hinit. vm_compute. reflexivity.
Defined.

Lemma init_if_app_direct (G : Globals) (o : FlaskRedis) (a : App)
    (cs : list call) (p : Urllib.ParseResult) :
  Urllib.urlparse (configured_url o a) = Ok p ->
  is_sentinel_scheme (Urllib.scheme p) = false ->
  provider_kwargs o !! "decode_responses" = None ->
  let url := configured_url o a in
  let k := <[ "decode_responses" := VBool (decode_responses o) ]> (provider_kwargs o) in
  init_if_app G o (Some a) cs
  = match from_url (provider_class o) url k with
    | Ok c =>
        {| instance := inr (with_redis_client c (update_provider_kwargs ∅ o));
           app_after := Some (register (Py.lower (config_prefix o)) (oid o) a);
           calls_after := cs ++ [CallFromUrl url k] |}
    | Raise e =>
        {| instance := inl (FromInitApp e); app_after := Some a;
           calls_after := cs ++ [CallFromUrl url k] |}
    end.
Proof.
  intros Hp Hs Hkey. cbn zeta. unfold init_if_app.
  rewrite (init_app_direct G ∅ {| self := o; app := a; calls := cs |} p Hp Hs).
  cbn [self app calls]. rewrite (left_id_L ∅ (∪)).
  rewrite keywords_pair by by apply map_disjoint_singleton_l.
  rewrite <- insert_union_singleton_l. cbn zeta.
  by destruct (from_url _ _ _).
Qed.

(** X18.  [from_custom_provider] with an application whose URL takes the
    direct path builds the client with the provider it was given: the
    single call is that provider's [from_url] on the configured URL, with
    the extra keywords and [decode_responses]; the instance returned holds
    the client and the custom provider class.  Neither [strict] nor the
    default classes of [redis] play a part, and an exception of the
    provider is the exception of the call. *)
Theorem custom_provider_builds_the_client (r : RedisModule) (G : Globals)
    (new_oid : nat) (provider : Provider) (a : App) (strict : bool)
    (prefix : string) (decode : bool) (kw : kwargs) (cs : list call)
    (p : Urllib.ParseResult) :
  let url := default "redis://localhost:6379/0" (config a !! (prefix +:+ "_URL")) in
  let k := <[ "decode_responses" := VBool decode ]> kw in
  let out := from_custom_provider (Some r) G new_oid (Some provider) (Some a)
               strict prefix decode kw cs in
  Urllib.urlparse url = Ok p ->
  is_sentinel_scheme (Urllib.scheme p) = false ->
  kw !! "decode_responses" = None ->
  calls_after out = cs ++ [CallFromUrl url k]
  /\ match from_url provider url k with
     | Ok c => exists o, instance out = inr o
                 /\ _redis_client o = Some c
                 /\ provider_class o = provider
                 /\ oid o = new_oid
     | Raise e => instance out = inl (FromInitApp e)
     end.
Proof.
  intros url k out Hp Hs Hkey. subst out.
  change (from_custom_provider (Some r) G new_oid (Some provider) (Some a)
            strict prefix decode kw cs)
    with (init_if_app G
            (with_provider_class provider
               {| oid := new_oid; _redis_client := None;
                  provider_class := if strict then StrictRedis r else Redis r;
                  config_prefix := prefix; decode_responses := decode;
                  provider_kwargs := kw |}) (Some a) cs).
  rewrite (init_if_app_direct G
    (with_provider_class provider
       {| oid := new_oid; _redis_client := None;
          provider_class := if strict then StrictRedis r else Redis r;
          config_prefix := prefix; decode_responses := decode;
          provider_kwargs := kw |}) a cs p Hp Hs Hkey).
  cbn [with_provider_class provider_class decode_responses provider_kwargs].
  change (configured_url _ a) with url. fold k.
  destruct (from_url provider url k) as [c|e]; [|done].
  split; [done|]. by eexists.
Qed.

Lemma custom_provider_builds_the_client_witness :
  let custom := {| from_url := fun _ _ => Ok 9%nat |} in
  let r := {| StrictRedis := Fixture.provider; Redis := Fixture.provider |} in
  let out := from_custom_provider (Some r) Fixture.with_sentinel 4 (Some custom)
               (Some (Fixture.application "redis://localhost:6379/0"))
               true "REDIS" false ∅ [] in
  calls_after out = [CallFromUrl "redis://localhost:6379/0"
                       {[ "decode_responses" := VBool false ]}]
  /\ exists o, instance out = inr o
       /\ _redis_client o = Some 9%nat
       /\ provider_class o = custom
       /\ oid o = 4%nat.
Proof.
  cbv zeta.
  destruct (custom_provider_builds_the_client
    {| StrictRedis := Fixture.provider; Redis := Fixture.provider |}
    Fixture.with_sentinel 4 {| from_url := fun _ _ => Ok 9%nat |}
    (Fixture.application "redis://localhost:6379/0") true "REDIS" false ∅ []
    {| Urllib.scheme := "redis"; Urllib.netloc := "localhost:6379";
       Urllib.path := "/0"; Urllib.query := ""; Urllib.fragment := "" |})
    as [Hc Ho]; [reflexivity | reflexivity | reflexivity |].
  split; [|exact Ho]. rewrite Hc. vm_compute. reflexivity.
Defined.

(** X19.  [FlaskRedis(app, strict=...)] on a URL that takes the direct
    path builds the client with [redis.StrictRedis] when [strict] is true
    and with [redis.Redis] otherwise: the single call is that class's
    [from_url], and the instance returned holds its client. *)
Theorem strict_selects_the_client_class (r : RedisModule) (G : Globals)
    (new_oid : nat) (a : App) (strict : bool) (prefix : string) (decode : bool)
    (kw : kwargs) (cs : list call) (p : Urllib.ParseResult) :
  let url := default "redis://localhost:6379/0" (config a !! (prefix +:+ "_URL")) in
  let k := <[ "decode_responses" := VBool decode ]> kw in
  let cls := if strict then StrictRedis r else Redis r in
  let out := __init__ (Some r) G new_oid (Some a) strict prefix decode kw cs in
  Urllib.urlparse url = Ok p ->
  is_sentinel_scheme (Urllib.scheme p) = false ->
  kw !! "decode_responses" = None ->
  calls_after out = cs ++ [CallFromUrl url k]
  /\ match from_url cls url k with
     | Ok c => exists o, instance out = inr o
                 /\ _redis_client o = Some c
                 /\ provider_class o = cls
     | Raise e => instance out = inl (FromInitApp e)
     end.
Proof.
  intros url k cls out Hp Hs Hkey. subst out. unfold __init__.
  rewrite (init_if_app_direct G
    {| oid := new_oid; _redis_client := None;
       provider_class := if strict then StrictRedis r else Redis r;
       config_prefix := prefix; decode_responses := decode;
       provider_kwargs := kw |} a cs p Hp Hs Hkey).
  cbn [provider_class decode_responses provider_kwargs].
  change (configured_url _ a) with url. fold k. fold cls.
  destruct (from_url cls url k) as [c|e]; [|done].
  split; [done|]. by eexists.
Qed.

Lemma strict_selects_the_client_class_witness :
  let r := {| StrictRedis := {| from_url := fun _ _ => Ok 11%nat |};
              Redis := {| from_url := fun _ _ => Ok 12%nat |} |} in
  let out := __init__ (Some r) Fixture.with_sentinel 4
               (Some (Fixture.application "redis://localhost:6379/0"))
               false "REDIS" true ∅ [] in
  calls_after out = [CallFromUrl "redis://localhost:6379/0"
                       {[ "decode_responses" := VBool true ]}]
  /\ exists o, instance out = inr o
       /\ _redis_client o = Some 12%nat
       /\ provider_class o = Redis r.
Proof.
  cbv zeta.
  destruct (strict_selects_the_client_class
    {| StrictRedis := {| from_url := fun _ _ => Ok 11%nat |};
       Redis := {| from_url := fun _ _ => Ok 12%nat |} |}
    Fixture.with_sentinel 4
    (Fixture.application "redis://localhost:6379/0") false "REDIS" true ∅ []
    {| Urllib.scheme := "redis"; Urllib.netloc := "localhost:6379";
       Urllib.path := "/0"; Urllib.query := ""; Urllib.fragment := "" |})
    as [Hc Ho]; [reflexivity | reflexivity | reflexivity |].
  split; [|exact Ho]. rewrite Hc. vm_compute. reflexivity.
Defined.

(** ** More on the security parameters and the credentials *)

Lemma first_value_elem (key : string) (pairs : list (string * string)) (v : string) :
  Spec.first_value key pairs = Some v -> (key, v) ∈ pairs.
Proof.
  induction pairs as [|[n w] pairs IH]; [done|]. cbn [Spec.first_value].
  destruct (String.eqb_spec n key) as [->|_].
  - intros [= ->]. apply list_elem_of_here.
  - intros H. apply list_elem_of_further. by apply IH.
Qed.

(** A value that [parse_qs] gives is never empty, hence always true in a
    condition. *)
Lemma first_value_truthy (key qs v : string) :
  Spec.first_value key (Urllib.parse_qsl qs) = Some v -> Py.truthy v = true.
Proof.
  intros H%first_value_elem. apply parse_fields_values in H. by destruct v.
Qed.

Lemma set_if_truthy_own (key : string) (v : option string) (d : kwargs) :
  Client.set_if_truthy key v d !! key
  = match v with
    | Some s => if Py.truthy s then Some (VStr s) else d !! key
    | None => d !! key
    end.
Proof.
  unfold Client.set_if_truthy. destruct v as [s|]; [|done].
  destruct (Py.truthy s); [apply lookup_insert_eq|done].
Qed.

Lemma parse_ssl_cert_reqs_spec (qs : string) :
  _parse_ssl_cert_reqs (Urllib.parse_qs qs)
  = Ok (Spec.first_value "ssl_cert_reqs" (Urllib.parse_qsl qs)
        ≫= fun v => ({[ "required" := CERT_REQUIRED; "optional" := CERT_OPTIONAL;
                        "none" := CERT_NONE ]} : gmap string VerifyMode)
                     !! Py.lower v).
Proof.
  unfold _parse_ssl_cert_reqs. rewrite get_first_parse_qs.
  destruct (Spec.first_value _ _) as [v|] eqn:Hv; [|done]. cbn.
  by rewrite (first_value_truthy _ _ _ Hv).
Qed.

(** X20.  With security enabled, the keyword arguments for the transport
    are exactly these: [ssl=True]; each of [ssl_keyfile], [ssl_certfile]
    and [ssl_ca_certs] with the first value the query gives it, unchanged,
    and absent when the query gives none; [ssl_cert_reqs] with the verify
    mode that the first value names in any case of letters ([required],
    [optional], [none]), absent when the query gives none or names no
    mode; and no other key.  No query makes this raise. *)
Theorem ssl_params_pass_query_values (qs : string) :
  let pairs := Urllib.parse_qsl qs in
  exists m, _parse_ssl_params (Urllib.parse_qs qs) true = Ok m
    /\ m !! "ssl" = Some (VBool true)
    /\ m !! "ssl_keyfile" = VStr <$> Spec.first_value "ssl_keyfile" pairs
    /\ m !! "ssl_certfile" = VStr <$> Spec.first_value "ssl_certfile" pairs
    /\ m !! "ssl_ca_certs" = VStr <$> Spec.first_value "ssl_ca_certs" pairs
    /\ m !! "ssl_cert_reqs"
       = VVerifyMode <$>
           (Spec.first_value "ssl_cert_reqs" pairs
            ≫= fun v => ({[ "required" := CERT_REQUIRED;
                            "optional" := CERT_OPTIONAL;
                            "none" := CERT_NONE ]} : gmap string VerifyMode)
                         !! Py.lower v)
    /\ forall key, is_Some (m !! key) ->
         key ∈ ["ssl"; "ssl_cert_reqs"; "ssl_keyfile"; "ssl_certfile";
                "ssl_ca_certs"].
Proof.
  intros pairs. unfold _parse_ssl_params.
  rewrite parse_ssl_cert_reqs_spec, !get_first_parse_qs.
  cbn [mbind result_bind]. fold pairs.
  assert (forall o : option string, from_option Some None o = o) as Hid
    by (by intros []).
  rewrite !Hid. clear Hid.
  set (mode := Spec.first_value "ssl_cert_reqs" pairs ≫= _).
  set (base := match mode with
               | Some m => <["ssl_cert_reqs" := VVerifyMode m]> _
               | None => _
               end : kwargs).
  assert (forall key v (d : kwargs),
            Spec.first_value key pairs = v ->
            Client.set_if_truthy key v d !! key
            = match v with Some s => Some (VStr s) | None => d !! key end) as Hown.
  { intros key v d Hv. rewrite set_if_truthy_own. destruct v as [s|]; [|done].
    by rewrite (first_value_truthy key qs s Hv). }
  assert (base !! "ssl" = Some (VBool true)) as Hssl.
  { subst base. destruct mode; [by rewrite lookup_insert_ne|done]. }
  assert (base !! "ssl_cert_reqs" = VVerifyMode <$> mode) as Hreq.
  { subst base. destruct mode; [apply lookup_insert_eq|done]. }
  assert (forall key, key <> "ssl" -> key <> "ssl_cert_reqs" -> base !! key = None)
    as Hbase.
  { intros key H1 H2. subst base.
    destruct mode; rewrite ?lookup_insert_ne by done;
      by apply lookup_singleton_ne. }
  eexists. split; [reflexivity|].
  split; [by rewrite !set_if_truthy_lookup|].
  split.
  { rewrite !set_if_truthy_lookup by done. rewrite (Hown _ _ _ eq_refl).
    destruct (Spec.first_value "ssl_keyfile" pairs); [done|]. by apply Hbase. }
  split.
  { rewrite !set_if_truthy_lookup by done. rewrite (Hown _ _ _ eq_refl).
    destruct (Spec.first_value "ssl_certfile" pairs); [done|].
    rewrite set_if_truthy_lookup by done. by apply Hbase. }
  split.
  { rewrite (Hown _ _ _ eq_refl).
    destruct (Spec.first_value "ssl_ca_certs" pairs); [done|].
    rewrite !set_if_truthy_lookup by done. by apply Hbase. }
  split; [by rewrite !set_if_truthy_lookup|].
  intros key Hsome.
  destruct (decide (key = "ssl")) as [->|H1];
    [apply list_elem_of_here|].
  destruct (decide (key = "ssl_cert_reqs")) as [->|H2];
    [apply list_elem_of_further, list_elem_of_here|].
  destruct (decide (key = "ssl_keyfile")) as [->|H3];
    [do 2 apply list_elem_of_further; apply list_elem_of_here|].
  destruct (decide (key = "ssl_certfile")) as [->|H4];
    [do 3 apply list_elem_of_further; apply list_elem_of_here|].
  destruct (decide (key = "ssl_ca_certs")) as [->|H5];
    [do 4 apply list_elem_of_further; apply list_elem_of_here|].
  rewrite !set_if_truthy_lookup, Hbase in Hsome by done.
  by destruct Hsome.
Qed.

(** X21.  When security is on.  For a sentinel URL that resolves,
    security is on exactly when the scheme is [rediss+sentinel] (whatever
    the query says, [ssl=false] included) or the first [ssl] value of the
    query is [true] in any case of letters.  Any other spelling ([1],
    [yes], [on]) leaves it off, and then the security parameters are
    empty: certificate parameters of the query are dropped without an
    error. *)
Theorem security_is_on_by_scheme_or_ssl_true (p : Urllib.ParseResult)
    (sk : sentinel_kwargs_t) (ck : client_kwargs_t) :
  _parse_sentinel_parameters p = Ok (sk, ck) ->
  let on :=
    String.eqb (Urllib.scheme p) "rediss+sentinel"
    || match Spec.first_value "ssl" (Urllib.parse_qsl (Urllib.query p)) with
       | Some v => String.eqb (Py.lower v) "true"
       | None => false
       end in
  ck_ssl_params ck = sk_ssl_params sk
  /\ if on then sk_ssl_params sk !! "ssl" = Some (VBool true)
     else sk_ssl_params sk = ∅.
Proof.
  intros Hr on.
  apply parse_sentinel_parameters_inv in Hr
    as (hosts & name & db & t & b & m & _ & _ & _ & Hb & Hm & -> & ->).
  split; [done|]. cbn [sk_ssl_params].
  rewrite parse_ssl_enabled_spec in Hb. injection Hb as Hb.
  assert (b = on) as ->.
  { rewrite <- Hb. subst on. f_equal.
    by destruct (Spec.first_value "ssl" _). }
  destruct (parse_ssl_params_total (Urllib.query p) on) as (m' & Hm' & Hoff & Hon).
  rewrite Hm in Hm'. injection Hm' as <-.
  destruct on; [by apply Hon|by apply Hoff].
Qed.

Lemma security_is_on_by_scheme_or_ssl_true_witness :
  (let p := {| Urllib.scheme := "rediss+sentinel"; Urllib.netloc := "h";
               Urllib.path := "/m/0"; Urllib.query := "ssl=false";
               Urllib.fragment := "" |} in
   exists sk ck, _parse_sentinel_parameters p = Ok (sk, ck)
     /\ ck_ssl_params ck = sk_ssl_params sk
     /\ sk_ssl_params sk !! "ssl" = Some (VBool true))
  /\ (let p := {| Urllib.scheme := "redis+sentinel"; Urllib.netloc := "h";
                  Urllib.path := "/m/0";
                  Urllib.query := "ssl=1&ssl_keyfile=/k.pem";
                  Urllib.fragment := "" |} in
      exists sk ck, _parse_sentinel_parameters p = Ok (sk, ck)
        /\ ck_ssl_params ck = sk_ssl_params sk
        /\ sk_ssl_params sk = ∅).
Proof.
  cbv zeta. split.
  - eexists _, _. split; [vm_compute; reflexivity|].
    apply (security_is_on_by_scheme_or_ssl_true
      {| Urllib.scheme := "rediss+sentinel"; Urllib.netloc := "h";
         Urllib.path := "/m/0"; Urllib.query := "ssl=false";
         Urllib.fragment := "" |}).
    vm_compute. reflexivity.
  - eexists _, _. split; [vm_compute; reflexivity|].
    apply (security_is_on_by_scheme_or_ssl_true
      {| Urllib.scheme := "redis+sentinel"; Urllib.netloc := "h";
         Urllib.path := "/m/0"; Urllib.query := "ssl=1&ssl_keyfile=/k.pem";
         Urllib.fragment := "" |}).
    vm_compute. reflexivity.
Defined.

(** X22.  A sentinel URL whose authority has no [@] resolves to empty
    credentials, for the sentinel and for the client: no [username] and
    no [password] keyword is passed on. *)
Theorem no_at_sign_no_credentials (p : Urllib.ParseResult)
    (sk : sentinel_kwargs_t) (ck : client_kwargs_t) :
  Py.contains "@" (Urllib.netloc p) = false ->
  _parse_sentinel_parameters p = Ok (sk, ck) ->
  sk_auth_params sk = ∅ /\ ck_auth_params ck = ∅.
Proof.
  intros Hat Hr.
  apply parse_sentinel_parameters_inv in Hr
    as (hosts & name & db & t & b & m & _ & _ & _ & _ & _ & -> & ->).
  cbn [sk_auth_params ck_auth_params].
  unfold Urllib.username, Urllib.password, Urllib._userinfo.
  by rewrite (rpartition_none _ _ Hat).
Qed.

Lemma no_at_sign_no_credentials_witness :
  let p := {| Urllib.scheme := "redis+sentinel"; Urllib.netloc := "h1:1,h2";
              Urllib.path := "/m/0"; Urllib.query := ""; Urllib.fragment := "" |} in
  Py.contains "@" (Urllib.netloc p) = false
  /\ exists sk ck, _parse_sentinel_parameters p = Ok (sk, ck)
       /\ sk_auth_params sk = ∅ /\ ck_auth_params ck = ∅.
Proof.
  cbv zeta. split; [reflexivity|].
  eexists _, _. split; [vm_compute; reflexivity|].
  apply (no_at_sign_no_credentials
    {| Urllib.scheme := "redis+sentinel"; Urllib.netloc := "h1:1,h2";
       Urllib.path := "/m/0"; Urllib.query := ""; Urllib.fragment := "" |});
    [reflexivity | vm_compute; reflexivity].
Defined.
